(** * diart.pipelines: configuration and orchestration of the streaming
    speaker diarization pipeline

    A shallow embedding of [src/diart/pipelines.py].

    - Python floats (durations, steps, thresholds) are exact rationals [Q];
      the steps and durations the examples compute with are dyadic
      rationals, on which the rational and the binary64 results coincide.
    - A raised exception is a value of [PyError] carried by the error
      monad [Result].
    - An [rx.Observable] is the finite list of the items it emits, in
      order, the same for every subscriber; [rx.zip] is [combine],
      [ops.map] is [map], and a stateful callable mapped over a stream
      threads its state explicitly.
    - The objects of [diart.functional], [diart.operators] and
      [diart.sources] are records holding the constructor's arguments;
      what calling them computes belongs to those modules and is taken
      through the interface [Externals]. *)

From Stdlib Require Import ZArith QArith Qround Lqa List Ascii String Bool Lia.
From Stdlib Require Import DecimalString.
Import ListNotations.

Set Implicit Arguments.

Local Open Scope Q_scope.

(** ** Exceptions and the error monad *)

Inductive PyError : Type :=
| AssertionError (msg : string)
| ZeroDivisionError
| ValueError (msg : string).

Inductive Result (A : Type) : Type :=
| Ok (a : A)
| Err (e : PyError).

Arguments Ok {A} a.
Arguments Err {A} e.

Definition bind {A B : Type} (m : Result A) (k : A -> Result B) : Result B :=
  match m with
  | Ok a => k a
  | Err e => Err e
  end.

Notation "x <- m ;; k" := (bind m (fun x => k))
  (at level 61, m at next level, right associativity).
Notation "m ;;; k" := (bind m (fun _ => k))
  (at level 61, right associativity).

(** [assert cond, msg] *)
Definition py_assert (cond : bool) (msg : string) : Result unit :=
  if cond then Ok tt else Err (AssertionError msg).

Definition succeeds {A : Type} (m : Result A) : Prop :=
  exists a, m = Ok a.

(** The result of a computation seen through [f]; an exception is kept. *)
Definition fmap {A B : Type} (f : A -> B) (m : Result A) : Result B :=
  match m with
  | Ok a => Ok (f a)
  | Err e => Err e
  end.

(** ** Float arithmetic used by the pipeline *)

(** [a <= b] on floats. *)
Definition fle (a b : Q) : bool := Qle_bool a b.

(** [a == 0.0] *)
Definition is_zero (a : Q) : bool := Qeq_bool a 0.

(** [a % b]: the remainder takes the sign of the divisor, and a zero
    divisor raises. *)
Definition py_mod (a b : Q) : Result Q :=
  if is_zero b then Err ZeroDivisionError
  else Ok (a - b * inject_Z (Qfloor (a / b))).

(** [a / b] *)
Definition py_div (a b : Q) : Result Q :=
  if is_zero b then Err ZeroDivisionError else Ok (a / b).

(** [m] is an integer multiple of [s]. *)
Definition multiple_of (s m : Q) : Prop :=
  exists k : Z, m == inject_Z k * s.

(** ** pyannote.core windows *)

(** [SlidingWindow(duration, step, start)] *)
Record SlidingWindow : Type := {
  sw_duration : Q;
  sw_step : Q;
  sw_start : Q
}.

(** [SlidingWindowFeature(data, sliding_window)] *)
Record SlidingWindowFeature (A : Type) : Type := {
  data : A;
  sliding_window : SlidingWindow
}.

Arguments data {A} s.
Arguments sliding_window {A} s.

(** ** Objects of diart.functional, diart.sources and pyannote *)

(** A loaded pyannote model, as far as the pipeline reads it:
    [model.specifications.duration] and [model.audio.sample_rate]. *)
Module Model.
Record t : Type := {
  specifications_duration : Q;
  audio_sample_rate : Z
}.
End Model.

(** [fn.FrameWiseModel(model)] *)
Module FrameWiseModel.
Record t : Type := { model : Model.t }.
End FrameWiseModel.

(** [fn.ChunkWiseModel(model)] *)
Module ChunkWiseModel.
Record t : Type := { model : Model.t }.
End ChunkWiseModel.

(** [fn.OverlappedSpeechPenalty(gamma, beta)] *)
Module OverlappedSpeechPenalty.
Record t : Type := { gamma : Q; beta : Q }.
End OverlappedSpeechPenalty.

(** [fn.EmbeddingNormalization(norm)] *)
Module EmbeddingNormalization.
Record t : Type := { norm : Q }.
End EmbeddingNormalization.

(** [fn.OnlineSpeakerClustering(tau_active, rho_update, delta_new, metric,
    max_speakers)] *)
Module OnlineSpeakerClustering.
Record t : Type := {
  tau_active : Q;
  rho_update : Q;
  delta_new : Q;
  metric : string;
  max_speakers : Z
}.
End OnlineSpeakerClustering.

(** [fn.DelayedAggregation(step, latency, strategy, stream_end)] *)
Module DelayedAggregation.
Record t : Type := {
  step : Q;
  latency : Q;
  strategy : string;
  stream_end : option Q
}.

(** Modelled from the spec: the attribute [num_overlapping_windows] that
    the constructor of [fn.DelayedAggregation] sets (diart/functional.py
    is not part of the verified file).  The spec fixes it as
    [ceil(latency / step)]. *)
Definition num_overlapping_windows (self : t) : Z :=
  Qceiling (latency self / step self).
End DelayedAggregation.

(** [fn.Binarize(uri, tau_active)] *)
Module Binarize.
Record t : Type := { uri : string; tau_active : Q }.
End Binarize.

(** [src.ChunkLoader(sample_rate, window_duration, step)] *)
Module ChunkLoader.
Record t : Type := { sample_rate : Z; window_duration : Q; step : Q }.
End ChunkLoader.

(** [src.AudioSource], as far as the pipeline reads it.  [stream] lists the
    items the source emits. *)
Module AudioSource.
Record t (Item : Type) : Type := {
  uri : string;
  sample_rate : Z;
  duration : option Q;
  is_regular : bool;
  stream : list Item
}.
End AudioSource.

(** ** PipelineConfig *)

Module PipelineConfig.
Record t : Type := {
  segmentation : FrameWiseModel.t;
  embedding : ChunkWiseModel.t;
  duration : Q;
  step : Q;
  latency : Q;
  tau_active : Q;
  rho_update : Q;
  delta_new : Q;
  gamma : Q;
  beta : Q;
  max_speakers : Z
}.

(** [PipelineConfig.__init__]; [segmentation] and [embedding] are the
    loaded models. *)
Definition init (segmentation_ embedding_ : Model.t)
    (duration_ : option Q) (step_ : Q) (latency_ : option Q)
    (tau_active_ rho_update_ delta_new_ gamma_ beta_ : Q)
    (max_speakers_ : Z) : Result t :=
  let self_segmentation := {| FrameWiseModel.model := segmentation_ |} in
  let self_duration :=
    match duration_ with
    | Some d => d
    | None =>
        Model.specifications_duration (FrameWiseModel.model self_segmentation)
    end in
  let self_embedding := {| ChunkWiseModel.model := embedding_ |} in
  let self_step := step_ in
  let self_latency :=
    match latency_ with
    | Some l => l
    | None => self_step
    end in
  py_assert (fle self_step self_latency && fle self_latency self_duration)
    "Invalid latency requested" ;;;
  Ok {| segmentation := self_segmentation;
        embedding := self_embedding;
        duration := self_duration;
        step := self_step;
        latency := self_latency;
        tau_active := tau_active_;
        rho_update := rho_update_;
        delta_new := delta_new_;
        gamma := gamma_;
        beta := beta_;
        max_speakers := max_speakers_ |}.

(** [__init__] with the keyword defaults of the signature. *)
Definition init_defaults (segmentation_ embedding_ : Model.t) : Result t :=
  init segmentation_ embedding_ None (1 # 2) None
    (3 # 5) (3 # 10) 1 3 10 20%Z.

(** The [sample_rate] property. *)
Definition sample_rate (self : t) : Z :=
  Model.audio_sample_rate (FrameWiseModel.model (segmentation self)).

(** [get_end_time(source)] *)
Definition get_end_time {Item : Type} (self : t)
    (source : AudioSource.t Item) : Result (option Q) :=
  match AudioSource.duration source with
  | Some d =>
      r <- py_mod d (step self) ;;
      Ok (Some (d - r))
  | None => Ok None
  end.
End PipelineConfig.

(** ** Observables *)

(** [rx.zip(a, b)]: pairs the i-th items; completes with the shorter
    stream. *)
Definition rx_zip {A B : Type} (a : list A) (b : list B) : list (A * B) :=
  combine a b.

(** [ops.map(f)] *)
Definition ops_map {A B : Type} (f : A -> B) (s : list A) : list B :=
  map f s.

(** [ops.starmap(f)] *)
Definition ops_starmap {A B C : Type} (f : A -> B -> C)
    (s : list (A * B)) : list C :=
  map (fun ab => f (fst ab) (snd ab)) s.

(** [ops.starmap(obj)] for a callable object that keeps state between
    calls: [call] takes the state before the call and returns the state
    after it with the result. *)
Fixpoint ops_starmap_stateful {S A B C : Type} (call : S -> A -> B -> S * C)
    (state : S) (s : list (A * B)) : list C :=
  match s with
  | [] => []
  | (a, b) :: rest =>
      let (state', c) := call state a b in
      c :: ops_starmap_stateful call state' rest
  end.

(** Number of items of [range(lo, hi, step)] for a non-zero [step]. *)
Definition range_length (lo hi step : Z) : nat :=
  if (0 <? step)%Z then
    if (lo <? hi)%Z then Z.to_nat (1 + (hi - 1 - lo) / step) else 0%nat
  else
    if (hi <? lo)%Z then Z.to_nat (1 + (lo - 1 - hi) / (- step)) else 0%nat.

(** [range(lo, hi, step)]; a zero step raises. *)
Definition py_range (lo hi step : Z) : Result (list Z) :=
  if (step =? 0)%Z then Err (ValueError "range() arg 3 must not be zero")
  else Ok (map (fun k => (lo + step * Z.of_nat k)%Z)
               (seq 0 (range_length lo hi step))).

(** [rx.range(lo, hi)] *)
Definition rx_range (lo hi : Z) : list Z :=
  map (fun k => (lo + Z.of_nat k)%Z) (seq 0 (Z.to_nat (hi - lo))).

(** [a[i]]: a negative index counts from the end; [None] stands for
    IndexError. *)
Definition py_index {A : Type} (a : list A) (i : Z) : option A :=
  let n := Z.of_nat (List.length a) in
  let i := if (i <? 0)%Z then (i + n)%Z else i in
  if (i <? 0)%Z || (n <=? i)%Z then None else nth_error a (Z.to_nat i).

(** A slice bound brought into [[0, n]], as slicing does. *)
Definition slice_bound (n i : Z) : Z :=
  if (i <? 0)%Z then Z.max (i + n) 0 else Z.min i n.

(** [a[i:j]] *)
Definition py_slice {A : Type} (a : list A) (i j : Z) : list A :=
  let n := Z.of_nat (List.length a) in
  let i := slice_bound n i in
  let j := slice_bound n j in
  firstn (Z.to_nat (j - i)) (skipn (Z.to_nat i) a).

(** [ops.map(lambda i: f(a[i]))] over a stream of indices: an index out of
    range raises inside the operator, which ends the stream there. *)
Fixpoint ops_map_index {A B : Type} (a : list A) (f : Z -> A -> B)
    (s : list Z) : list B :=
  match s with
  | [] => []
  | i :: rest =>
      match py_index a i with
      | Some x => f i x :: ops_map_index a f rest
      | None => []
      end
  end.

(** [np.vstack(arrays)] and [torch.vstack(tensors)] of row blocks: an empty
    sequence raises. *)
Definition vstack {A : Type} (blocks : list (list A)) : Result (list A) :=
  match blocks with
  | [] => Err (ValueError "need at least one array to concatenate")
  | _ => Ok (List.concat blocks)
  end.

(** ** The collaborators outside pipelines.py

    What the objects of [diart.functional], [diart.operators] and
    [diart.sources] compute when called.  The pipeline only wires them
    together, so they are an interface here. *)
Class Externals : Type := {
  (** arrays and tensors *)
  Samples : Type;
  Activations : Type;
  Weights : Type;
  Embedding : Type;
  Annotation : Type;
  (** the speaker registry an [OnlineSpeakerClustering] object carries *)
  Registry : Type;

  (** diart.functional, called on one window *)
  FrameWiseModel_call :
    FrameWiseModel.t -> SlidingWindowFeature Samples ->
    SlidingWindowFeature Activations;
  ChunkWiseModel_call :
    ChunkWiseModel.t -> SlidingWindowFeature Samples -> Weights -> Embedding;
  OverlappedSpeechPenalty_call :
    OverlappedSpeechPenalty.t -> SlidingWindowFeature Activations -> Weights;
  EmbeddingNormalization_call :
    EmbeddingNormalization.t -> Embedding -> Embedding;
  OnlineSpeakerClustering_new : OnlineSpeakerClustering.t -> Registry;
  OnlineSpeakerClustering_call :
    OnlineSpeakerClustering.t -> Registry ->
    SlidingWindowFeature Activations -> Embedding ->
    Registry * SlidingWindowFeature Activations;
  DelayedAggregation_call :
    DelayedAggregation.t -> list (SlidingWindowFeature Activations) ->
    SlidingWindowFeature Activations;
  (** the same [__call__], on a buffer of audio windows *)
  DelayedAggregation_call_waveform :
    DelayedAggregation.t -> list (SlidingWindowFeature Samples) ->
    SlidingWindowFeature Samples;
  Binarize_call :
    Binarize.t -> SlidingWindowFeature Activations -> Annotation;

  (** diart.functional, on one row of a batch array *)
  FrameWiseModel_row : FrameWiseModel.t -> Samples -> Activations;
  ChunkWiseModel_row : ChunkWiseModel.t -> Samples -> Weights -> Embedding;
  OverlappedSpeechPenalty_row :
    OverlappedSpeechPenalty.t -> Activations -> Weights;
  (** [a.shape[0]] of one row of a segmentation batch *)
  num_frames : Activations -> Z;

  (** diart.operators; the blocks of an irregular source and the windows
      of a regular one are both [SlidingWindowFeature Samples] here *)
  buffer_slide : forall A : Type, Z -> list A -> list (list A);
  regularize_stream :
    Q -> Q -> Z -> list (SlidingWindowFeature Samples) ->
    list (SlidingWindowFeature Samples);

  (** diart.sources and einops *)
  get_duration : ChunkLoader.t -> string -> Q;
  get_chunks : ChunkLoader.t -> string -> list Samples;
  rearrange_chunk : Samples -> Samples
}.

Arguments buffer_slide {Externals A} n s.

Section BatchCalls.
Context {E : Externals}.

(** Modelled from the spec: [fn.FrameWiseModel.__call__] on a batch array
    (diart/functional.py is not part of the verified file).  The spec
    makes [segment] a pure function of one window, so a batch is
    processed row by row. *)
Definition FrameWiseModel_call_batch (self : FrameWiseModel.t)
    (batch : list Samples) : list Activations :=
  map (FrameWiseModel_row self) batch.

(** Modelled from the spec: [fn.OverlappedSpeechPenalty.__call__] on a
    batch of segmentations, a deterministic transform from one
    activation matrix to its per-frame weights. *)
Definition OverlappedSpeechPenalty_call_batch
    (self : OverlappedSpeechPenalty.t)
    (segmentation : list Activations) : list Weights :=
  map (OverlappedSpeechPenalty_row self) segmentation.

(** Modelled from the spec: [fn.ChunkWiseModel.__call__] on a batch array
    and its weights; [embed(window, weights)] is a pure function of one
    window and its weights. *)
Definition ChunkWiseModel_call_batch (self : ChunkWiseModel.t)
    (batch : list Samples) (weights : list Weights) : list Embedding :=
  map (fun bw => ChunkWiseModel_row self (fst bw) (snd bw))
      (combine batch weights).

(** Modelled from the spec: [fn.EmbeddingNormalization.__call__] on a
    batch of embeddings normalizes each of them. *)
Definition EmbeddingNormalization_call_batch
    (self : EmbeddingNormalization.t)
    (embeddings : list Embedding) : list Embedding :=
  map (EmbeddingNormalization_call self) embeddings.
End BatchCalls.

(** ** Paths and strings *)

(** [s.split(sep)[0]] for a one-character separator. *)
Fixpoint split_first (sep : Ascii.ascii) (s : string) : string :=
  match s with
  | EmptyString => EmptyString
  | String c rest =>
      if Ascii.eqb c sep then EmptyString else String c (split_first sep rest)
  end.

Fixpoint has_separator (s : string) : bool :=
  match s with
  | EmptyString => false
  | String c rest => Ascii.eqb c "/"%char || has_separator rest
  end.

(** [Path(file).name], the final component of a path that does not end in
    a separator. *)
Fixpoint Path_name (file : string) : string :=
  match file with
  | EmptyString => EmptyString
  | String c rest => if has_separator file then Path_name rest else file
  end.

(** [str(n)] for an int. *)
Definition str_of_int (n : Z) : string :=
  NilZero.string_of_int (Z.to_int n).

(** ** OnlineSpeakerTracking *)

Module OnlineSpeakerTracking.
Section WithExternals.
Context {E : Externals}.

Record t : Type := { config : PipelineConfig.t }.

(** [from_model_streams(uri, end_time, segmentation_stream,
    embedding_stream, audio_chunk_stream)].  An emitted tuple
    [(annotation, waveform)] is the pair [(annotation, Some waveform)]. *)
Definition from_model_streams (self : t) (uri : string)
    (end_time : option Q)
    (segmentation_stream : list (SlidingWindowFeature Activations))
    (embedding_stream : list Embedding)
    (audio_chunk_stream : option (list (SlidingWindowFeature Samples)))
    : list (Annotation * option (SlidingWindowFeature Samples)) :=
  let clustering :=
    {| OnlineSpeakerClustering.tau_active :=
         PipelineConfig.tau_active (config self);
       OnlineSpeakerClustering.rho_update :=
         PipelineConfig.rho_update (config self);
       OnlineSpeakerClustering.delta_new :=
         PipelineConfig.delta_new (config self);
       OnlineSpeakerClustering.metric := "cosine";
       OnlineSpeakerClustering.max_speakers :=
         PipelineConfig.max_speakers (config self) |} in
  let aggregation :=
    {| DelayedAggregation.step := PipelineConfig.step (config self);
       DelayedAggregation.latency := PipelineConfig.latency (config self);
       DelayedAggregation.strategy := "hamming";
       DelayedAggregation.stream_end := end_time |} in
  let binarize :=
    {| Binarize.uri := uri;
       Binarize.tau_active := PipelineConfig.tau_active (config self) |} in
  let pipeline :=
    ops_map (Binarize_call binarize)
      (ops_map (DelayedAggregation_call aggregation)
         (buffer_slide
            (DelayedAggregation.num_overlapping_windows aggregation)
            (ops_starmap_stateful
               (OnlineSpeakerClustering_call clustering)
               (OnlineSpeakerClustering_new clustering)
               (rx_zip segmentation_stream embedding_stream)))) in
  match audio_chunk_stream with
  | Some audio_chunk_stream =>
      let window_selector :=
        {| DelayedAggregation.step := PipelineConfig.step (config self);
           DelayedAggregation.latency :=
             PipelineConfig.latency (config self);
           DelayedAggregation.strategy := "first";
           DelayedAggregation.stream_end := end_time |} in
      let waveform_stream :=
        ops_map (DelayedAggregation_call_waveform window_selector)
          (buffer_slide
             (DelayedAggregation.num_overlapping_windows window_selector)
             audio_chunk_stream) in
      ops_map (fun aw => (fst aw, Some (snd aw)))
        (rx_zip pipeline waveform_stream)
  | None => ops_map (fun ann => (ann, None)) pipeline
  end.

(** The arguments of one call of [from_model_streams]. *)
Record args : Type := {
  uri : string;
  end_time : option Q;
  segmentation_stream : list (SlidingWindowFeature Activations);
  embedding_stream : list Embedding;
  audio_chunk_stream : option (list (SlidingWindowFeature Samples))
}.

Definition call (self : t) (a : args)
    : list (Annotation * option (SlidingWindowFeature Samples)) :=
  from_model_streams self (uri a) (end_time a) (segmentation_stream a)
    (embedding_stream a) (audio_chunk_stream a).
End WithExternals.
End OnlineSpeakerTracking.

(** ** OnlineSpeakerDiarization *)

Module OnlineSpeakerDiarization.
Section WithExternals.
Context {E : Externals}.

Record t : Type := {
  config : PipelineConfig.t;
  speaker_tracking : OnlineSpeakerTracking.t
}.

(** [OnlineSpeakerDiarization.__init__] *)
Definition init (config_ : PipelineConfig.t) : t :=
  {| config := config_;
     speaker_tracking := {| OnlineSpeakerTracking.config := config_ |} |}.

(** The body of [from_source(source, output_waveform)] up to its last
    statement: the arguments it hands to
    [self.speaker_tracking.from_model_streams]. *)
Definition from_source_streams (self : t)
    (source : AudioSource.t (SlidingWindowFeature Samples))
    (output_waveform : bool) : Result OnlineSpeakerTracking.args :=
  let msg :=
    ("Audio source has sample rate "
       ++ str_of_int (AudioSource.sample_rate source)
       ++ ", expected "
       ++ str_of_int (PipelineConfig.sample_rate (config self)))%string in
  py_assert
    (AudioSource.sample_rate source
       =? PipelineConfig.sample_rate (config self))%Z msg ;;;
  let regular_stream :=
    if negb (AudioSource.is_regular source) then
      regularize_stream
        (PipelineConfig.duration (config self))
        (PipelineConfig.step (config self))
        (AudioSource.sample_rate source)
        (AudioSource.stream source)
    else AudioSource.stream source in
  let segmentation_stream :=
    ops_map (FrameWiseModel_call (PipelineConfig.segmentation (config self)))
      regular_stream in
  let osp :=
    {| OverlappedSpeechPenalty.gamma := PipelineConfig.gamma (config self);
       OverlappedSpeechPenalty.beta := PipelineConfig.beta (config self) |} in
  let embedding_stream :=
    ops_map (EmbeddingNormalization_call {| EmbeddingNormalization.norm := 1 |})
      (ops_starmap
         (ChunkWiseModel_call (PipelineConfig.embedding (config self)))
         (ops_starmap
            (fun wave seg => (wave, OverlappedSpeechPenalty_call osp seg))
            (rx_zip regular_stream segmentation_stream))) in
  end_time <- PipelineConfig.get_end_time (config self) source ;;
  let chunk_stream := if output_waveform then Some regular_stream else None in
  Ok {| OnlineSpeakerTracking.uri := AudioSource.uri source;
        OnlineSpeakerTracking.end_time := end_time;
        OnlineSpeakerTracking.segmentation_stream := segmentation_stream;
        OnlineSpeakerTracking.embedding_stream := embedding_stream;
        OnlineSpeakerTracking.audio_chunk_stream := chunk_stream |}.

(** [from_source(source, output_waveform)] *)
Definition from_source (self : t)
    (source : AudioSource.t (SlidingWindowFeature Samples))
    (output_waveform : bool)
    : Result (list (Annotation * option (SlidingWindowFeature Samples))) :=
  streams <- from_source_streams self source output_waveform ;;
  Ok (OnlineSpeakerTracking.call (speaker_tracking self) streams).

(** One turn of the batching loop of [from_file]: the lists
    [segmentation] and [embeddings] before and after the turn for the
    batch that starts at chunk [i]. *)
Definition from_file_batch (self : t) (chunks : list Samples)
    (batch_size : Z)
    (acc : list (list Activations) * list (list Embedding)) (i : Z)
    : list (list Activations) * list (list Embedding) :=
  let num_chunks := Z.of_nat (List.length chunks) in
  let osp :=
    {| OverlappedSpeechPenalty.gamma := PipelineConfig.gamma (config self);
       OverlappedSpeechPenalty.beta := PipelineConfig.beta (config self) |} in
  let emb_norm := {| EmbeddingNormalization.norm := 1 |} in
  let i_end := (i + batch_size)%Z in
  let i_end := if (num_chunks <? i_end)%Z then num_chunks else i_end in
  let batch := py_slice chunks i i_end in
  let seg :=
    FrameWiseModel_call_batch (PipelineConfig.segmentation (config self))
      batch in
  (fst acc ++ [seg],
   snd acc ++
     [EmbeddingNormalization_call_batch emb_norm
        (ChunkWiseModel_call_batch (PipelineConfig.embedding (config self))
           batch (OverlappedSpeechPenalty_call_batch osp seg))]).

(** [segmentation.shape[1]] of the stacked segmentation array: the number
    of frames of its rows. *)
Definition shape_1 (segmentation : list Activations) : Z :=
  match segmentation with
  | [] => 0%Z
  | row :: _ => num_frames row
  end.

(** The body of [from_file(file, output_waveform, batch_size)] up to its
    last statement: the arguments it hands to
    [self.speaker_tracking.from_model_streams]. *)
Definition from_file_streams (self : t) (file : string)
    (output_waveform : bool) (batch_size : Z)
    : Result OnlineSpeakerTracking.args :=
  let chunk_loader :=
    {| ChunkLoader.sample_rate := PipelineConfig.sample_rate (config self);
       ChunkLoader.window_duration := PipelineConfig.duration (config self);
       ChunkLoader.step := PipelineConfig.step (config self) |} in
  let uri := split_first "."%char (Path_name file) in
  end_time <-
    py_mod (get_duration chunk_loader file)
      (PipelineConfig.step (config self)) ;;
  let chunks := map rearrange_chunk (get_chunks chunk_loader file) in
  let num_chunks := Z.of_nat (List.length chunks) in
  starts <- py_range 0 num_chunks batch_size ;;
  let batches :=
    fold_left (from_file_batch self chunks batch_size) starts ([], []) in
  segmentation <- vstack (fst batches) ;;
  embeddings <- vstack (snd batches) ;;
  resolution <-
    py_div (PipelineConfig.duration (config self))
      (inject_Z (shape_1 segmentation)) ;;
  let segmentation_stream :=
    ops_map_index segmentation
      (fun i row =>
         {| data := row;
            sliding_window :=
              {| sw_duration := resolution;
                 sw_step := resolution;
                 sw_start :=
                   inject_Z i * PipelineConfig.step (config self) |} |})
      (rx_range 0 num_chunks) in
  let embedding_stream :=
    ops_map_index embeddings (fun _ e => e) (rx_range 0 num_chunks) in
  wav_resolution <-
    py_div 1 (inject_Z (PipelineConfig.sample_rate (config self))) ;;
  let chunk_stream :=
    if output_waveform then
      Some
        (ops_map_index chunks
           (fun i chunk =>
              {| data := chunk;
                 sliding_window :=
                   {| sw_duration := wav_resolution;
                      sw_step := wav_resolution;
                      sw_start :=
                        inject_Z i * PipelineConfig.step (config self) |} |})
           (rx_range 0 num_chunks))
    else None in
  Ok {| OnlineSpeakerTracking.uri := uri;
        OnlineSpeakerTracking.end_time := Some end_time;
        OnlineSpeakerTracking.segmentation_stream := segmentation_stream;
        OnlineSpeakerTracking.embedding_stream := embedding_stream;
        OnlineSpeakerTracking.audio_chunk_stream := chunk_stream |}.

(** [from_file(file, output_waveform, batch_size)] *)
Definition from_file (self : t) (file : string) (output_waveform : bool)
    (batch_size : Z)
    : Result (list (Annotation * option (SlidingWindowFeature Samples))) :=
  streams <- from_file_streams self file output_waveform batch_size ;;
  Ok (OnlineSpeakerTracking.call (speaker_tracking self) streams).
End WithExternals.
End OnlineSpeakerDiarization.

(** * Views of the pipeline

    Names for the parts of the entry points that the properties are stated
    with. *)

(** The value an optional argument takes after defaulting. *)
Definition resolved (arg : option Q) (default : Q) : Q :=
  match arg with
  | Some x => x
  | None => default
  end.

Section StatefulViews.
Context {S A B C : Type}.
Variable call : S -> A -> B -> S * C.

End StatefulViews.

Section DiarizationViews.
Context {E : Externals}.
Variable self : OnlineSpeakerDiarization.t.

Let cfg : PipelineConfig.t := OnlineSpeakerDiarization.config self.

(** What the configured models compute for one chunk of a file. *)
Definition row_segmentation (chunk : Samples) : Activations :=
  FrameWiseModel_row (PipelineConfig.segmentation cfg) chunk.

Definition row_embedding (chunk : Samples) : Embedding :=
  EmbeddingNormalization_call {| EmbeddingNormalization.norm := 1 |}
    (ChunkWiseModel_row (PipelineConfig.embedding cfg) chunk
       (OverlappedSpeechPenalty_row
          {| OverlappedSpeechPenalty.gamma := PipelineConfig.gamma cfg;
             OverlappedSpeechPenalty.beta := PipelineConfig.beta cfg |}
          (row_segmentation chunk))).

Section BatchViews.
Variables (chunks : list Samples) (batch_size : Z).

Let num_chunks : Z := Z.of_nat (List.length chunks).

(** The batch of the loop turn that starts at chunk [i]. *)
Definition batch_at (i : Z) : list Samples :=
  py_slice chunks i
    (if (num_chunks <? i + batch_size)%Z then num_chunks
     else (i + batch_size)%Z).
End BatchViews.

Section FileViews.
Variables (file : string) (output_waveform : bool).

(** The chunk loader [from_file] builds, and the chunks it reads. *)
Definition file_loader : ChunkLoader.t :=
  {| ChunkLoader.sample_rate := PipelineConfig.sample_rate cfg;
     ChunkLoader.window_duration := PipelineConfig.duration cfg;
     ChunkLoader.step := PipelineConfig.step cfg |}.

Definition file_chunks : list Samples :=
  map rearrange_chunk (get_chunks file_loader file).

(** The window [from_file] attaches to row [i]. *)
Definition file_window {A : Type} (resolution : Q) (i : Z) (row : A)
    : SlidingWindowFeature A :=
  {| data := row;
     sliding_window :=
       {| sw_duration := resolution;
          sw_step := resolution;
          sw_start := inject_Z i * PipelineConfig.step cfg |} |}.

Let num_chunks : Z := Z.of_nat (List.length file_chunks).

(** The streams of a successful [from_file]. *)
Definition file_streams (end_time resolution wav_resolution : Q)
    : OnlineSpeakerTracking.args :=
  {| OnlineSpeakerTracking.uri := split_first "."%char (Path_name file);
     OnlineSpeakerTracking.end_time := Some end_time;
     OnlineSpeakerTracking.segmentation_stream :=
       map (fun ix => file_window resolution (fst ix) (snd ix))
         (combine (rx_range 0 num_chunks)
            (map row_segmentation file_chunks));
     OnlineSpeakerTracking.embedding_stream :=
       map row_embedding file_chunks;
     OnlineSpeakerTracking.audio_chunk_stream :=
       if output_waveform then
         Some (map (fun ix => file_window wav_resolution (fst ix) (snd ix))
                 (combine (rx_range 0 num_chunks) file_chunks))
       else None |}.
End FileViews.

Section SourceViews.
Variable source : AudioSource.t (SlidingWindowFeature Samples).
Variable output_waveform : bool.

(** The message of the sample rate assertion. *)
Definition sample_rate_msg : string :=
  ("Audio source has sample rate "
     ++ str_of_int (AudioSource.sample_rate source)
     ++ ", expected "
     ++ str_of_int (PipelineConfig.sample_rate cfg))%string.

(** The stream every branch of the live pipeline reads. *)
Definition regular_stream : list (SlidingWindowFeature Samples) :=
  if AudioSource.is_regular source then AudioSource.stream source
  else
    regularize_stream (PipelineConfig.duration cfg) (PipelineConfig.step cfg)
      (AudioSource.sample_rate source) (AudioSource.stream source).

(** What the configured models compute for one window of a live stream. *)
Definition window_segmentation (wave : SlidingWindowFeature Samples)
    : SlidingWindowFeature Activations :=
  FrameWiseModel_call (PipelineConfig.segmentation cfg) wave.

Definition window_embedding (wave : SlidingWindowFeature Samples)
    : Embedding :=
  EmbeddingNormalization_call {| EmbeddingNormalization.norm := 1 |}
    (ChunkWiseModel_call (PipelineConfig.embedding cfg) wave
       (OverlappedSpeechPenalty_call
          {| OverlappedSpeechPenalty.gamma := PipelineConfig.gamma cfg;
             OverlappedSpeechPenalty.beta := PipelineConfig.beta cfg |}
          (window_segmentation wave))).

(** The streams of a successful [from_source]. *)
Definition source_streams (end_time : option Q)
    : OnlineSpeakerTracking.args :=
  {| OnlineSpeakerTracking.uri := AudioSource.uri source;
     OnlineSpeakerTracking.end_time := end_time;
     OnlineSpeakerTracking.segmentation_stream :=
       map window_segmentation regular_stream;
     OnlineSpeakerTracking.embedding_stream :=
       map window_embedding regular_stream;
     OnlineSpeakerTracking.audio_chunk_stream :=
       if output_waveform then Some regular_stream else None |}.
End SourceViews.
End DiarizationViews.

Section TrackingViews.
Context {E : Externals}.
Variables (self : OnlineSpeakerTracking.t) (uri : string).
Variable end_time : option Q.
Variable segmentation_stream : list (SlidingWindowFeature Activations).
Variable embedding_stream : list Embedding.

Let cfg : PipelineConfig.t := OnlineSpeakerTracking.config self.

(** The clustering object of the tracking stage: cosine metric and the
    configuration's four parameters. *)
Definition cosine_clustering : OnlineSpeakerClustering.t :=
  {| OnlineSpeakerClustering.tau_active := PipelineConfig.tau_active cfg;
     OnlineSpeakerClustering.rho_update := PipelineConfig.rho_update cfg;
     OnlineSpeakerClustering.delta_new := PipelineConfig.delta_new cfg;
     OnlineSpeakerClustering.metric := "cosine";
     OnlineSpeakerClustering.max_speakers :=
       PipelineConfig.max_speakers cfg |}.

(** A delayed aggregation with the configuration's step and latency and
    the stream's end time. *)
Definition delayed (strategy : string) : DelayedAggregation.t :=
  {| DelayedAggregation.step := PipelineConfig.step cfg;
     DelayedAggregation.latency := PipelineConfig.latency cfg;
     DelayedAggregation.strategy := strategy;
     DelayedAggregation.stream_end := end_time |}.

(** The output of the clustering stage, one window per zipped pair. *)
Definition clustered : list (SlidingWindowFeature Activations) :=
  ops_starmap_stateful (OnlineSpeakerClustering_call cosine_clustering)
    (OnlineSpeakerClustering_new cosine_clustering)
    (rx_zip segmentation_stream embedding_stream).

(** An annotation from one buffer of clustered windows. *)
Definition annotate (buffer : list (SlidingWindowFeature Activations))
    : Annotation :=
  Binarize_call
    {| Binarize.uri := uri;
       Binarize.tau_active := PipelineConfig.tau_active cfg |}
    (DelayedAggregation_call (delayed "hamming") buffer).

(** The annotation branch. *)
Definition annotations : list Annotation :=
  map annotate
    (buffer_slide
       (DelayedAggregation.num_overlapping_windows (delayed "hamming"))
       clustered).

(** The waveform branch. *)
Definition waveforms (audio_chunk_stream : list (SlidingWindowFeature Samples))
    : list (SlidingWindowFeature Samples) :=
  map (DelayedAggregation_call_waveform (delayed "first"))
    (buffer_slide
       (DelayedAggregation.num_overlapping_windows (delayed "first"))
       audio_chunk_stream).
End TrackingViews.

Section BufferViews.
Context {E : Externals}.

(** The sliding buffer treats items as opaque: buffering the images of a
    stream gives the images of its buffers. *)
Definition buffer_slide_natural : Prop :=
  forall (X Y : Type) (f : X -> Y) (n : Z) (s : list X),
    buffer_slide n (map f s) = map (map f) (buffer_slide n s).
End BufferViews.

(** ** A small implementation of the collaborators

    Integer stand-ins for the models and operators, used to run the
    pipeline on concrete streams. *)
Module Mock.
(** A sliding buffer that emits the [n] most recent items once [n] items
    have arrived. *)
Fixpoint sliding {A : Type} (n : nat) (s : list A) : list (list A) :=
  match s with
  | [] => []
  | _ :: rest =>
      if (n <=? List.length s)%nat then firstn n s :: sliding n rest else []
  end.

Definition window0 : SlidingWindow :=
  {| sw_duration := 0; sw_step := 0; sw_start := 0 |}.

Definition first_window {A : Type} (default : A)
    (buffers : list (SlidingWindowFeature A)) : SlidingWindowFeature A :=
  match buffers with
  | [] => {| data := default; sliding_window := window0 |}
  | w :: _ => w
  end.

(** The eleven chunks of 5 s, every 0.5 s, of a recording of 10.25 s. *)
Definition recording : list Z := [5; 6; 7; 8; 9; 10; 11; 12; 13; 14; 15]%Z.

#[export] Instance externals : Externals := {|
  Samples := Z;
  Activations := Z;
  Weights := Z;
  Embedding := Z;
  Annotation := Z;
  Registry := Z;
  FrameWiseModel_call := fun _ w =>
    {| data := (2 * data w)%Z; sliding_window := sliding_window w |};
  ChunkWiseModel_call := fun _ w weights => (data w + weights)%Z;
  OverlappedSpeechPenalty_call := fun _ seg => (data seg + 1)%Z;
  EmbeddingNormalization_call := fun _ e => (e mod 7)%Z;
  OnlineSpeakerClustering_new := fun _ => 0%Z;
  OnlineSpeakerClustering_call := fun _ registry seg e =>
    ((registry + 1)%Z,
     {| data := (data seg + registry)%Z;
        sliding_window := sliding_window seg |});
  DelayedAggregation_call := fun _ buffers => first_window 0%Z buffers;
  DelayedAggregation_call_waveform := fun _ buffers =>
    first_window 0%Z buffers;
  Binarize_call := fun _ seg => data seg;
  FrameWiseModel_row := fun _ chunk => (2 * chunk)%Z;
  ChunkWiseModel_row := fun _ chunk weights => (chunk + weights)%Z;
  OverlappedSpeechPenalty_row := fun _ seg => (seg + 1)%Z;
  num_frames := fun _ => 4%Z;
  buffer_slide := fun A n s => sliding (Z.to_nat n) s;
  regularize_stream := fun duration step _ s =>
    map (fun w =>
           {| data := data w;
              sliding_window :=
                {| sw_duration := duration;
                   sw_step := step;
                   sw_start := sw_start (sliding_window w) |} |}) s;
  get_duration := fun _ _ => 41 # 4;
  get_chunks := fun _ _ => recording;
  rearrange_chunk := fun chunk => chunk
|}.

Definition model : Model.t :=
  {| Model.specifications_duration := 5;
     Model.audio_sample_rate := 16000 |}.

(** [PipelineConfig()] with the default arguments. *)
Definition config : PipelineConfig.t :=
  {| PipelineConfig.segmentation := {| FrameWiseModel.model := model |};
     PipelineConfig.embedding := {| ChunkWiseModel.model := model |};
     PipelineConfig.duration := 5;
     PipelineConfig.step := 1 # 2;
     PipelineConfig.latency := 1 # 2;
     PipelineConfig.tau_active := 3 # 5;
     PipelineConfig.rho_update := 3 # 10;
     PipelineConfig.delta_new := 1;
     PipelineConfig.gamma := 3;
     PipelineConfig.beta := 10;
     PipelineConfig.max_speakers := 20 |}.

Definition chunk (start : Q) (x : Z) : SlidingWindowFeature Z :=
  {| data := x;
     sliding_window :=
       {| sw_duration := 1 # 16000; sw_step := 1 # 16000;
          sw_start := start |} |}.

(** The chunks of [recording] as a stream of windows. *)
Definition windows : list (SlidingWindowFeature Z) :=
  map (fun ix => chunk (inject_Z (fst ix) * (1 # 2)) (snd ix))
    (combine (rx_range 0 11) recording).

(** A regular source over the recording of 10.25 s. *)
Definition source : AudioSource.t (SlidingWindowFeature Z) :=
  {| AudioSource.uri := "rec";
     AudioSource.sample_rate := 16000;
     AudioSource.duration := Some (41 # 4);
     AudioSource.is_regular := true;
     AudioSource.stream := windows |}.


(** An open-ended source of irregular blocks. *)
Definition blocks : AudioSource.t (SlidingWindowFeature Z) :=
  {| AudioSource.uri := "live_recording";
     AudioSource.sample_rate := 16000;
     AudioSource.duration := None;
     AudioSource.is_regular := false;
     AudioSource.stream := [chunk 0 5; chunk (1 # 4) 6; chunk 3 7] |}.

(** A microphone at another sample rate. *)
Definition microphone : AudioSource.t (SlidingWindowFeature Z) :=
  {| AudioSource.uri := "live_recording";
     AudioSource.sample_rate := 44100;
     AudioSource.duration := None;
     AudioSource.is_regular := false;
     AudioSource.stream := [chunk 0 5; chunk (1 # 4) 6] |}.

Definition diarization : OnlineSpeakerDiarization.t :=
  OnlineSpeakerDiarization.init config.

(** [PipelineConfig(latency=1.5)]: three overlapping windows. *)
Definition config_delayed : PipelineConfig.t :=
  {| PipelineConfig.segmentation := {| FrameWiseModel.model := model |};
     PipelineConfig.embedding := {| ChunkWiseModel.model := model |};
     PipelineConfig.duration := 5;
     PipelineConfig.step := 1 # 2;
     PipelineConfig.latency := 3 # 2;
     PipelineConfig.tau_active := 3 # 5;
     PipelineConfig.rho_update := 3 # 10;
     PipelineConfig.delta_new := 1;
     PipelineConfig.gamma := 3;
     PipelineConfig.beta := 10;
     PipelineConfig.max_speakers := 20 |}.

Definition tracking_delayed : OnlineSpeakerTracking.t :=
  {| OnlineSpeakerTracking.config := config_delayed |}.

(** [PipelineConfig(step=-0.5)]: the constraint [-0.5 <= -0.5 <= 5]
    holds. *)
Definition config_backwards : PipelineConfig.t :=
  {| PipelineConfig.segmentation := {| FrameWiseModel.model := model |};
     PipelineConfig.embedding := {| ChunkWiseModel.model := model |};
     PipelineConfig.duration := 5;
     PipelineConfig.step := - (1 # 2);
     PipelineConfig.latency := - (1 # 2);
     PipelineConfig.tau_active := 3 # 5;
     PipelineConfig.rho_update := 3 # 10;
     PipelineConfig.delta_new := 1;
     PipelineConfig.gamma := 3;
     PipelineConfig.beta := 10;
     PipelineConfig.max_speakers := 20 |}.
End Mock.

(** * Properties *)

(** ** The error monad and float arithmetic *)

Lemma fle_iff (a b : Q) : fle a b = true <-> a <= b.
Proof. unfold fle. apply Qle_bool_iff. Qed.

Lemma is_zero_iff (a : Q) : is_zero a = true <-> a == 0.
Proof. unfold is_zero. apply Qeq_bool_iff. Qed.

Lemma is_zero_false (a : Q) : ~ a == 0 -> is_zero a = false.
Proof.
  intros H. destruct (is_zero a) eqn:Ez; [|reflexivity].
  apply is_zero_iff in Ez. contradiction.
Qed.

Lemma py_assert_ok (cond : bool) (msg : string) :
  py_assert cond msg = Ok tt <-> cond = true.
Proof.
  unfold py_assert. destruct cond; split; intros H;
    try reflexivity; discriminate.
Qed.

Lemma py_mod_nonzero (a b : Q) :
  ~ b == 0 -> py_mod a b = Ok (a - b * inject_Z (Qfloor (a / b))).
Proof. intros H. unfold py_mod. rewrite (is_zero_false H). reflexivity. Qed.

Lemma py_mod_zero (a b : Q) : b == 0 -> py_mod a b = Err ZeroDivisionError.
Proof.
  intros H. unfold py_mod.
  destruct (is_zero b) eqn:Ez; [reflexivity|].
  apply is_zero_iff in H. congruence.
Qed.

Lemma floor_multiple_le (d s : Q) :
  0 < s -> s * inject_Z (Qfloor (d / s)) <= d.
Proof.
  intros Hs.
  assert (E : d == s * (d / s)) by (field; lra).
  rewrite E at 2. apply Qmult_le_l; [assumption | apply Qfloor_le].
Qed.

Lemma floor_multiple_gt (d s : Q) :
  0 < s -> d < s * inject_Z (Qfloor (d / s)) + s.
Proof.
  intros Hs.
  assert (H := Qlt_floor (d / s)). rewrite inject_Z_plus in H.
  assert (E : d == s * (d / s)) by (field; lra).
  rewrite E at 1.
  setoid_replace (s * inject_Z (Qfloor (d / s)) + s)
    with (s * (inject_Z (Qfloor (d / s)) + inject_Z 1)) by ring.
  apply Qmult_lt_l; assumption.
Qed.

Lemma floor_of_multiple (k : Z) (s d : Q) :
  0 < s -> d == inject_Z k * s -> Qfloor (d / s) = k.
Proof.
  intros Hs Hd.
  assert (E : d / s == inject_Z k) by (rewrite Hd; field; lra).
  rewrite (Qfloor_comp _ _ E). apply Qfloor_Z.
Qed.

(** The remainder [d % s] for a positive [s] lies in [[0, s)]. *)
Lemma py_mod_bounds (d s : Q) :
  0 < s ->
  exists r, py_mod d s = Ok r /\ 0 <= r /\ r < s.
Proof.
  intros Hs. exists (d - s * inject_Z (Qfloor (d / s))).
  split; [apply py_mod_nonzero; lra|].
  pose proof (floor_multiple_le d Hs). pose proof (floor_multiple_gt d Hs).
  split; lra.
Qed.

Example py_mod_of_duration :
  exists r : Q, py_mod (41 # 4) (1 # 2) = Ok r /\ r == 1 # 4.
Proof. eexists. split; reflexivity. Qed.

Example py_mod_sign_of_divisor :
  exists r : Q, py_mod (- (3 # 4)) (1 # 2) = Ok r /\ r == 1 # 4.
Proof. eexists. split; reflexivity. Qed.

Example py_slice_inside : py_slice [1; 2; 3; 4; 5]%Z 1 3 = [2; 3]%Z.
Proof. reflexivity. Qed.

Example py_slice_clamped : py_slice [1; 2; 3; 4; 5]%Z (-2) 9 = [4; 5]%Z.
Proof. reflexivity. Qed.

Example py_index_from_end : py_index [1; 2; 3]%Z (-1) = Some 3%Z.
Proof. reflexivity. Qed.

Example py_range_backwards : py_range 5 0 (-2) = Ok [5; 3; 1]%Z.
Proof. reflexivity. Qed.

Example Path_name_uri :
  split_first "."%char (Path_name "data/rec.16k.wav") = "rec"%string.
Proof. reflexivity. Qed.

(** ** PipelineConfig.__init__ *)

Section Init.
Variables (segmentation embedding : Model.t).
Variables (duration : option Q) (step : Q) (latency : option Q).
Variables (tau_active rho_update delta_new gamma beta : Q).
Variable (max_speakers : Z).

Let construct : Result PipelineConfig.t :=
  PipelineConfig.init segmentation embedding duration step latency
    tau_active rho_update delta_new gamma beta max_speakers.

Let duration' : Q :=
  resolved duration (Model.specifications_duration segmentation).
Let latency' : Q := resolved latency step.

Lemma init_checks_resolved :
  construct =
  (py_assert (fle step latency' && fle latency' duration')
     "Invalid latency requested" ;;;
   Ok {| PipelineConfig.segmentation :=
           {| FrameWiseModel.model := segmentation |};
         PipelineConfig.embedding := {| ChunkWiseModel.model := embedding |};
         PipelineConfig.duration := duration';
         PipelineConfig.step := step;
         PipelineConfig.latency := latency';
         PipelineConfig.tau_active := tau_active;
         PipelineConfig.rho_update := rho_update;
         PipelineConfig.delta_new := delta_new;
         PipelineConfig.gamma := gamma;
         PipelineConfig.beta := beta;
         PipelineConfig.max_speakers := max_speakers |}).
Proof.
  unfold construct, duration', latency', PipelineConfig.init, resolved.
  destruct duration, latency; reflexivity.
Qed.

Lemma constraint_iff :
  fle step latency' && fle latency' duration' = true <->
  step <= latency' /\ latency' <= duration'.
Proof. rewrite andb_true_iff, !fle_iff. tauto. Qed.

(** C2: construction succeeds exactly when [step <= latency <= duration]
    holds for the values after defaulting; in every other case it raises
    the assertion error and yields no configuration. *)
Theorem init_succeeds_iff_constraint :
  (succeeds construct <-> step <= latency' /\ latency' <= duration') /\
  (~ (step <= latency' /\ latency' <= duration') <->
   construct = Err (AssertionError "Invalid latency requested")).
Proof.
  rewrite init_checks_resolved, <- constraint_iff.
  destruct (fle step latency' && fle latency' duration'); cbn.
  - split; split; intros H; try reflexivity; try discriminate.
    + eexists; reflexivity.
    + exfalso; apply H; reflexivity.
  - split; split; intros H; try reflexivity; try discriminate.
    destruct H as [cfg H]; discriminate.
Qed.

(** C9: in a configuration that was constructed, a latency left out is
    the step and a duration left out is the duration of the segmentation
    model's specifications; the constraint holds of these resolved
    values, and with the default latency its lower bound is an
    equality. *)
Theorem init_defaults_latency_and_duration (cfg : PipelineConfig.t) :
  construct = Ok cfg ->
  PipelineConfig.step cfg = step /\
  PipelineConfig.latency cfg = resolved latency step /\
  PipelineConfig.duration cfg =
    resolved duration (Model.specifications_duration segmentation) /\
  (latency = None -> PipelineConfig.latency cfg = PipelineConfig.step cfg) /\
  (duration = None ->
   PipelineConfig.duration cfg =
     Model.specifications_duration
       (FrameWiseModel.model (PipelineConfig.segmentation cfg))) /\
  PipelineConfig.step cfg <= PipelineConfig.latency cfg /\
  PipelineConfig.latency cfg <= PipelineConfig.duration cfg.
Proof.
  rewrite init_checks_resolved. intros H.
  destruct (fle step latency' && fle latency' duration') eqn:Ec;
    cbn in H; [|discriminate].
  apply constraint_iff in Ec. destruct Ec as [Hl Hd].
  injection H as <-. cbn.
  repeat split; try assumption.
  - intros ->. reflexivity.
  - intros ->. reflexivity.
Qed.
End Init.

(** With the latency left out, the only requirement left is that the step
    does not exceed the resolved duration. *)
Lemma init_default_latency_succeeds_iff
    (segmentation embedding : Model.t) (duration : option Q) (step : Q)
    (tau_active rho_update delta_new gamma beta : Q) (max_speakers : Z) :
  succeeds
    (PipelineConfig.init segmentation embedding duration step None
       tau_active rho_update delta_new gamma beta max_speakers) <->
  step <= resolved duration (Model.specifications_duration segmentation).
Proof.
  rewrite init_checks_resolved.
  pose proof (constraint_iff segmentation duration step None) as H.
  cbn in *.
  destruct (fle step step && _); cbn.
  - split; [intros _; apply H; reflexivity | intros _; eexists; reflexivity].
  - split; [intros [cfg Hc]; discriminate|].
    intros Hd. destruct H as [_ H].
    discriminate H. split; [apply Qle_refl | exact Hd].
Qed.

(** ** PipelineConfig.get_end_time *)


Section EndTime.
Context {Item : Type}.
Variables (self : PipelineConfig.t) (source : AudioSource.t Item).



End EndTime.



(** ** The end time of the two entry points *)

(** For a positive step and a positive duration, the remainder
    [d % step] that [from_file] passes on is never the rounded duration
    [d - d % step] of [get_end_time]. *)
Lemma remainder_is_not_rounded_duration (d s r : Q) :
  0 < s -> 0 < d -> py_mod d s = Ok r -> ~ d - r == r.
Proof.
  intros Hs Hd Hr H.
  rewrite py_mod_nonzero in Hr by lra.
  assert (Hr' : d - s * inject_Z (Qfloor (d / s)) = r) by congruence.
  clear Hr. rename Hr' into Hr.
  set (k := Qfloor (d / s)) in *.
  assert (E : d == inject_Z (2 * k) * s).
  { rewrite inject_Z_mult. rewrite <- Hr in H. change (inject_Z 2) with 2.
    setoid_replace (2 * inject_Z k * s) with (2 * (s * inject_Z k)) by ring.
    lra. }
  pose proof (floor_of_multiple Hs E) as Hk. fold k in Hk.
  assert (Hk0 : k = 0%Z) by lia.
  rewrite Hk0 in E. change (inject_Z (2 * 0)) with 0 in E. lra.
Qed.

(** ** Streams, slices and batches *)

Section Streams.
Context {A B : Type}.

Lemma zip_with_image (f : A -> B) (s : list A) :
  rx_zip s (ops_map f s) = map (fun x => (x, f x)) s.
Proof.
  unfold rx_zip, ops_map. induction s as [|x s IH]; cbn; congruence.
Qed.

Lemma py_index_app (pre suf : list A) (k : nat) :
  py_index (pre ++ suf) (Z.of_nat (List.length pre + k)) = nth_error suf k.
Proof.
  assert (Hnn : (Z.of_nat (List.length pre + k) <? 0)%Z = false)
    by (apply Z.ltb_ge; lia).
  unfold py_index. cbv zeta. rewrite !Hnn. cbn [orb]. rewrite length_app.
  destruct (Z.leb_spec (Z.of_nat (List.length pre + List.length suf))
              (Z.of_nat (List.length pre + k))) as [Hout|Hin].
  - symmetry. apply nth_error_None. lia.
  - rewrite Nat2Z.id, nth_error_app2 by lia. f_equal. lia.
Qed.

Lemma ops_map_index_from (f : Z -> A -> B) (pre suf : list A) :
  ops_map_index (pre ++ suf) f
    (map (fun k => Z.of_nat (List.length pre + k))
         (seq 0 (List.length suf))) =
  map (fun ix => f (fst ix) (snd ix))
      (combine (map (fun k => Z.of_nat (List.length pre + k))
                    (seq 0 (List.length suf))) suf).
Proof.
  revert pre. induction suf as [|x suf IH]; intros pre; [reflexivity|].
  cbn [List.length seq map ops_map_index combine fst snd].
  rewrite py_index_app. cbn [nth_error]. f_equal.
  rewrite <- seq_shift, map_map.
  specialize (IH (pre ++ [x])).
  rewrite <- app_assoc in IH. cbn [app] in IH.
  rewrite length_app in IH. cbn [List.length] in IH.
  erewrite map_ext; [rewrite IH|]; [|intros k; cbn; f_equal; lia].
  reflexivity.
Qed.

Lemma rx_range_length (a : list A) :
  rx_range 0 (Z.of_nat (List.length a)) =
  map (fun k => Z.of_nat (List.length (@nil A) + k)) (seq 0 (List.length a)).
Proof.
  unfold rx_range. rewrite Z.sub_0_r, Nat2Z.id. reflexivity.
Qed.

(** Every index of [rx.range(0, len(a))] is in range: the stream of
    [f(i, a[i])] has one item per element of [a]. *)
Lemma ops_map_index_range (f : Z -> A -> B) (a : list A) :
  ops_map_index a f (rx_range 0 (Z.of_nat (List.length a))) =
  map (fun ix => f (fst ix) (snd ix))
      (combine (rx_range 0 (Z.of_nat (List.length a))) a).
Proof.
  rewrite rx_range_length. apply (ops_map_index_from f []).
Qed.

Lemma ops_map_index_range_values (f : A -> B) (a : list A) :
  ops_map_index a (fun _ x => f x) (rx_range 0 (Z.of_nat (List.length a))) =
  map f a.
Proof.
  rewrite ops_map_index_range, rx_range_length.
  generalize (fun k => Z.of_nat (List.length (@nil A) + k)) as g.
  generalize 0%nat as start.
  induction a as [|x a IH]; intros start g; [reflexivity|].
  cbn. f_equal. apply IH.
Qed.
End Streams.

Lemma rx_range_count (n : nat) :
  List.length (rx_range 0 (Z.of_nat n)) = n.
Proof.
  unfold rx_range. rewrite length_map, length_seq, Z.sub_0_r. apply Nat2Z.id.
Qed.

Lemma map_snd_combine {A B : Type} (idx : list A) (l : list B) :
  List.length idx = List.length l -> map snd (combine idx l) = l.
Proof.
  revert idx. induction l as [|x l IH]; intros [|i idx] H;
    try reflexivity; try discriminate.
  cbn. f_equal. apply IH. cbn in H. lia.
Qed.

Lemma map_fst_combine {A B : Type} (l : list A) (idx : list B) :
  List.length l = List.length idx -> map fst (combine l idx) = l.
Proof.
  revert idx. induction l as [|x l IH]; intros [|i idx] H;
    try reflexivity; try discriminate.
  cbn. f_equal. apply IH. cbn in H. lia.
Qed.

Section Slices.
Context {A : Type}.

(** Consecutive blocks of [b] items cover the list. *)
Lemma concat_blocks (b : nat) (m : nat) (l : list A) :
  (List.length l <= m * b)%nat ->
  List.concat (map (fun k => firstn b (skipn (k * b) l)) (seq 0 m)) = l.
Proof.
  revert l. induction m as [|m IH]; intros l Hl.
  - destruct l; [reflexivity | cbn in Hl; lia].
  - cbn [seq map List.concat]. rewrite <- seq_shift, map_map.
    cbn [Nat.mul Nat.add skipn].
    erewrite map_ext;
      [rewrite (IH (skipn b l))|].
    + apply firstn_skipn.
    + rewrite length_skipn. lia.
    + intros k. cbn beta. rewrite skipn_skipn. f_equal. f_equal. lia.
Qed.

Lemma firstn_beyond (n : nat) (l : list A) :
  (List.length l <= n)%nat -> firstn n l = l.
Proof. intros H. apply firstn_all2. exact H. Qed.
End Slices.

(** ** The batching loop of from_file *)

Section BatchLoop.
Context {E : Externals}.
Variable self : OnlineSpeakerDiarization.t.

Let cfg : PipelineConfig.t := OnlineSpeakerDiarization.config self.

Variables (chunks : list Samples) (batch_size : Z).

Let num_chunks : Z := Z.of_nat (List.length chunks).

Lemma batch_embeddings (batch : list Samples) :
  EmbeddingNormalization_call_batch {| EmbeddingNormalization.norm := 1 |}
    (ChunkWiseModel_call_batch (PipelineConfig.embedding cfg) batch
       (OverlappedSpeechPenalty_call_batch
          {| OverlappedSpeechPenalty.gamma := PipelineConfig.gamma cfg;
             OverlappedSpeechPenalty.beta := PipelineConfig.beta cfg |}
          (FrameWiseModel_call_batch (PipelineConfig.segmentation cfg)
             batch))) =
  map (row_embedding self) batch.
Proof.
  unfold EmbeddingNormalization_call_batch, ChunkWiseModel_call_batch,
    OverlappedSpeechPenalty_call_batch, FrameWiseModel_call_batch.
  rewrite (map_map (FrameWiseModel_row _)).
  pose proof (@zip_with_image Samples Weights) as Hz.
  unfold rx_zip, ops_map in Hz. rewrite Hz, !map_map. reflexivity.
Qed.

Lemma from_file_batch_step
    (acc : list (list Activations) * list (list Embedding)) (i : Z) :
  OnlineSpeakerDiarization.from_file_batch self chunks batch_size acc i =
  (fst acc ++ [map (row_segmentation self) (batch_at chunks batch_size i)],
   snd acc ++ [map (row_embedding self) (batch_at chunks batch_size i)]).
Proof.
  unfold OnlineSpeakerDiarization.from_file_batch.
  cbv zeta. fold cfg. fold num_chunks. fold (batch_at chunks batch_size i).
  rewrite batch_embeddings. reflexivity.
Qed.

Lemma from_file_batches (starts : list Z)
    (acc : list (list Activations) * list (list Embedding)) :
  fold_left (OnlineSpeakerDiarization.from_file_batch self chunks batch_size)
    starts acc =
  (fst acc
     ++ map (fun i => map (row_segmentation self)
                        (batch_at chunks batch_size i)) starts,
   snd acc
     ++ map (fun i => map (row_embedding self)
                        (batch_at chunks batch_size i)) starts).
Proof.
  revert acc. induction starts as [|i starts IH]; intros acc.
  - cbn. rewrite !app_nil_r. destruct acc; reflexivity.
  - cbn [fold_left map]. rewrite IH, from_file_batch_step.
    cbn [fst snd]. rewrite <- !app_assoc. reflexivity.
Qed.

Hypothesis batch_size_pos : (0 < batch_size)%Z.

Lemma batch_at_block (k : nat) :
  batch_at chunks batch_size (0 + batch_size * Z.of_nat k) =
  firstn (Z.to_nat batch_size) (skipn (k * Z.to_nat batch_size) chunks).
Proof.
  unfold batch_at, py_slice. cbv zeta. fold num_chunks. rewrite Z.add_0_l.
  assert (Hi : Z.to_nat (batch_size * Z.of_nat k)
               = (k * Z.to_nat batch_size)%nat).
  { rewrite Z2Nat.inj_mul, Nat2Z.id by lia. apply Nat.mul_comm. }
  assert (Hkb : Z.of_nat (k * Z.to_nat batch_size)
                = (batch_size * Z.of_nat k)%Z).
  { rewrite <- Hi. rewrite Z2Nat.id; [reflexivity|].
    apply Z.mul_nonneg_nonneg; lia. }
  set (kb := (k * Z.to_nat batch_size)%nat) in *.
  set (i := (batch_size * Z.of_nat k)%Z) in *.
  assert (Hi0 : (0 <= i)%Z) by lia.
  assert (Hn : num_chunks = Z.of_nat (List.length chunks)) by reflexivity.
  unfold slice_bound.
  destruct (Z.ltb_spec i 0) as [|_]; [lia|].
  destruct (Z.ltb_spec num_chunks (i + batch_size)) as [Hlt|Hge].
  - destruct (Z.ltb_spec num_chunks 0) as [Hneg|_]; [lia|].
    rewrite Z.min_id.
    rewrite (firstn_beyond (n := Z.to_nat batch_size));
      [|rewrite length_skipn; lia].
    rewrite firstn_beyond by (rewrite length_skipn; lia).
    destruct (Z.le_gt_cases i num_chunks) as [Hin|Hout].
    + f_equal. lia.
    + rewrite !skipn_all2 by lia. reflexivity.
  - destruct (Z.ltb_spec (i + batch_size) 0) as [|_]; [lia|].
    f_equal; [|f_equal]; lia.
Qed.

Lemma range_covers :
  (List.length chunks
   <= range_length 0 num_chunks batch_size * Z.to_nat batch_size)%nat.
Proof.
  unfold range_length.
  destruct (Z.ltb_spec 0 batch_size) as [_|H]; [|lia].
  destruct (Z.ltb_spec 0 num_chunks) as [Hn|Hn];
    [|unfold num_chunks in Hn; lia].
  pose proof (Z.mul_succ_div_gt (num_chunks - 1 - 0) batch_size
                batch_size_pos) as Hq.
  pose proof (Z.div_pos (num_chunks - 1 - 0) batch_size) as Hq0.
  apply Nat2Z.inj_le. rewrite Nat2Z.inj_mul, !Z2Nat.id by lia.
  fold num_chunks. lia.
Qed.

(** The batches of the loop, stacked, hold one row per chunk, in order. *)
Lemma batches_cover_chunks (starts : list Z) :
  py_range 0 num_chunks batch_size = Ok starts ->
  List.concat (map (batch_at chunks batch_size) starts) = chunks.
Proof.
  unfold py_range.
  destruct (Z.eqb_spec batch_size 0) as [H0|_]; [lia|].
  intros H. injection H as <-. rewrite map_map.
  erewrite map_ext; [|intros k; apply batch_at_block].
  apply concat_blocks, range_covers.
Qed.

Lemma range_nonempty (starts : list Z) :
  py_range 0 num_chunks batch_size = Ok starts ->
  chunks <> [] -> starts <> [].
Proof.
  intros Hr Hc ->. apply batches_cover_chunks in Hr. cbn in Hr.
  congruence.
Qed.
End BatchLoop.

(** ** from_file: the streams handed to from_model_streams *)

Section FileStreams.
Context {E : Externals}.
Variables (self : OnlineSpeakerDiarization.t) (file : string).
Variables (output_waveform : bool) (batch_size : Z).

Let cfg : PipelineConfig.t := OnlineSpeakerDiarization.config self.

Let num_chunks : Z := Z.of_nat (List.length (file_chunks self file)).

Lemma stacked_rows (starts : list Z) (segmentation : list Activations) :
  py_range 0 num_chunks batch_size = Ok starts ->
  vstack
    (fst (fold_left
            (OnlineSpeakerDiarization.from_file_batch self
               (file_chunks self file) batch_size) starts ([], [])))
    = Ok segmentation ->
  (0 < batch_size)%Z /\ (file_chunks self file) <> [] /\
  segmentation = map (row_segmentation self) (file_chunks self file) /\
  vstack
    (snd (fold_left
            (OnlineSpeakerDiarization.from_file_batch self
               (file_chunks self file) batch_size) starts ([], []))) =
  Ok (map (row_embedding self) (file_chunks self file)).
Proof.
  intros Hr. rewrite from_file_batches. cbn [fst snd app].
  destruct starts as [|i rest] eqn:Es; [discriminate|]. rewrite <- Es in *.
  assert (Hpos : (0 < batch_size)%Z).
  { unfold py_range, range_length in Hr.
    destruct (Z.eqb_spec batch_size 0) as [|Hn0]; [discriminate|].
    destruct (Z.ltb_spec 0 batch_size) as [|Hneg]; [assumption|].
    destruct (Z.ltb_spec num_chunks 0) as [Hlt|_];
      [unfold num_chunks in Hlt; lia|].
    cbn in Hr. congruence. }
  pose proof (batches_cover_chunks (file_chunks self file) Hpos Hr) as Hcover.
  assert (Hstack : forall (B : Type) (f : Samples -> B),
             vstack
               (map (fun j => map f (batch_at (file_chunks self file)
                                       batch_size j)) starts)
             = Ok (map f (file_chunks self file))).
  { intros B f.
    transitivity
      (Ok (List.concat
             (map (fun j => map f (batch_at (file_chunks self file)
                                     batch_size j)) starts))).
    - rewrite Es. reflexivity.
    - f_equal.
      rewrite <- (map_map (batch_at (file_chunks self file) batch_size)
                    (map f)).
      rewrite <- concat_map, Hcover. reflexivity. }
  rewrite !Hstack. intros Hs. injection Hs as <-.
  repeat split; try assumption.
  intros Hnil. rewrite Hnil in Hcover.
  rewrite Es in Hr. unfold py_range in Hr.
  destruct (batch_size =? 0)%Z; [discriminate|].
  unfold num_chunks in Hr. rewrite Hnil in Hr. cbn in Hr.
  unfold range_length in Hr.
  destruct (0 <? batch_size)%Z; cbn in Hr; discriminate.
Qed.

Lemma range_of_chunks :
  (0 < batch_size)%Z -> (file_chunks self file) <> [] ->
  exists i starts, py_range 0 num_chunks batch_size = Ok (i :: starts).
Proof.
  intros Hpos Hne. unfold py_range.
  destruct (Z.eqb_spec batch_size 0) as [|_]; [lia|].
  destruct (map _ _) as [|i starts] eqn:Em; [|eauto].
  exfalso.
  assert (Hr : py_range 0 num_chunks batch_size = Ok []).
  { unfold py_range. destruct (Z.eqb_spec batch_size 0) as [|_]; [lia|].
    rewrite Em. reflexivity. }
  exact (range_nonempty Hpos Hr Hne eq_refl).
Qed.

Lemma from_file_streams_eq :
  (0 < batch_size)%Z -> (file_chunks self file) <> [] ->
  OnlineSpeakerDiarization.from_file_streams self file output_waveform
    batch_size =
  (end_time <-
     py_mod (get_duration (file_loader self) file) (PipelineConfig.step cfg) ;;
   resolution <-
     py_div (PipelineConfig.duration cfg)
       (inject_Z (OnlineSpeakerDiarization.shape_1
                    (map (row_segmentation self) (file_chunks self file)))) ;;
   wav_resolution <-
     py_div 1 (inject_Z (PipelineConfig.sample_rate cfg)) ;;
   Ok (file_streams self file output_waveform end_time resolution
         wav_resolution)).
Proof.
  intros Hpos Hne.
  unfold OnlineSpeakerDiarization.from_file_streams. cbv zeta.
  fold (file_loader self). fold (file_chunks self file). fold num_chunks.
  fold cfg.
  destruct (py_mod _ _) as [end_time|e]; [|reflexivity]. cbn [bind].
  destruct (range_of_chunks Hpos Hne) as (i & starts & Hr).
  rewrite Hr. cbn [bind].
  destruct (vstack (fst _)) as [segmentation|e] eqn:Ev.
  - destruct (stacked_rows Hr Ev) as (_ & _ & -> & ->). cbn [bind].
    destruct (py_div _ _) as [resolution|e]; [|reflexivity]. cbn [bind].
    destruct (py_div _ _) as [wav_resolution|e]; [|reflexivity]. cbn [bind].
    unfold file_streams. f_equal. f_equal.
    + unfold num_chunks.
      rewrite <- (length_map (row_segmentation self) (file_chunks self file)).
      exact (ops_map_index_range (file_window self resolution) _).
    + unfold num_chunks.
      rewrite <- (length_map (row_embedding self) (file_chunks self file)).
      rewrite (ops_map_index_range_values (fun e => e)). apply map_id.
    + destruct output_waveform; [|reflexivity]. f_equal.
      exact (ops_map_index_range (file_window self wav_resolution) _).
  - exfalso. rewrite from_file_batches in Ev. cbn in Ev. discriminate.
Qed.

Lemma from_file_streams_inv (streams : OnlineSpeakerTracking.args) :
  OnlineSpeakerDiarization.from_file_streams self file output_waveform
    batch_size = Ok streams ->
  (0 < batch_size)%Z /\ (file_chunks self file) <> [].
Proof.
  unfold OnlineSpeakerDiarization.from_file_streams. cbv zeta.
  fold (file_loader self). fold (file_chunks self file). fold num_chunks.
  fold cfg.
  destruct (py_mod _ _) as [end_time|e]; [|discriminate]. cbn [bind].
  destruct (py_range _ _ _) as [starts|e] eqn:Hr; [|discriminate]. cbn [bind].
  destruct (vstack (fst _)) as [segmentation|e] eqn:Ev; [|discriminate].
  intros _. destruct (stacked_rows Hr Ev) as (H1 & H2 & _). split; assumption.
Qed.
End FileStreams.

(** ** from_source: the streams handed to from_model_streams *)

Section SourceStreams.
Context {E : Externals}.
Variable self : OnlineSpeakerDiarization.t.
Variable source : AudioSource.t (SlidingWindowFeature Samples).
Variable output_waveform : bool.

Let cfg : PipelineConfig.t := OnlineSpeakerDiarization.config self.

Lemma from_source_streams_eq :
  OnlineSpeakerDiarization.from_source_streams self source output_waveform =
  (py_assert
     (AudioSource.sample_rate source =? PipelineConfig.sample_rate cfg)%Z
     (sample_rate_msg self source) ;;;
   end_time <- PipelineConfig.get_end_time cfg source ;;
   Ok (source_streams self source output_waveform end_time)).
Proof.
  unfold OnlineSpeakerDiarization.from_source_streams. cbv zeta.
  fold cfg. fold (sample_rate_msg self source).
  destruct (py_assert _ _); [|reflexivity]. cbn [bind].
  destruct (PipelineConfig.get_end_time cfg source) as [end_time|e];
    [|reflexivity]. cbn [bind].
  unfold source_streams, regular_stream.
  destruct (AudioSource.is_regular source); cbn [negb];
    rewrite zip_with_image; unfold ops_starmap, ops_map;
    rewrite !map_map; reflexivity.
Qed.

Lemma from_source_streams_ok (streams : OnlineSpeakerTracking.args) :
  OnlineSpeakerDiarization.from_source_streams self source output_waveform
    = Ok streams ->
  AudioSource.sample_rate source = PipelineConfig.sample_rate cfg /\
  exists end_time,
    PipelineConfig.get_end_time cfg source = Ok end_time /\
    streams = source_streams self source output_waveform end_time.
Proof.
  rewrite from_source_streams_eq. unfold py_assert.
  destruct (Z.eqb_spec (AudioSource.sample_rate source)
              (PipelineConfig.sample_rate cfg)) as [Hsr|Hsr];
    [|discriminate]. cbn [bind].
  destruct (PipelineConfig.get_end_time cfg source) as [end_time|e];
    [|discriminate]. cbn [bind].
  intros H. injection H as <-. split; [assumption|]. eauto.
Qed.

Lemma get_end_time_errors (e : PyError) :
  PipelineConfig.get_end_time cfg source = Err e -> e = ZeroDivisionError.
Proof.
  unfold PipelineConfig.get_end_time.
  destruct (AudioSource.duration source) as [d|]; [|discriminate].
  unfold py_mod. destruct (is_zero _); cbn; congruence.
Qed.

(** C3: a source whose sample rate differs from the configuration's makes
    [from_source] raise the assertion error, whatever the collaborators and
    the stream are, and nothing of the pipeline is returned; a source whose
    sample rate matches passes the check, and [from_source] goes on to
    compute the end time and to hand the streams to the tracking stage. *)
Theorem from_source_checks_sample_rate :
  (AudioSource.sample_rate source <> PipelineConfig.sample_rate cfg ->
   OnlineSpeakerDiarization.from_source self source output_waveform =
   Err (AssertionError (sample_rate_msg self source))) /\
  (AudioSource.sample_rate source = PipelineConfig.sample_rate cfg ->
   OnlineSpeakerDiarization.from_source self source output_waveform =
   (end_time <- PipelineConfig.get_end_time cfg source ;;
    Ok (OnlineSpeakerTracking.call
          (OnlineSpeakerDiarization.speaker_tracking self)
          (source_streams self source output_waveform end_time))) /\
   forall msg,
     OnlineSpeakerDiarization.from_source self source output_waveform <>
     Err (AssertionError msg)).
Proof.
  unfold OnlineSpeakerDiarization.from_source.
  rewrite from_source_streams_eq. unfold py_assert. split.
  - intros Hsr. apply Z.eqb_neq in Hsr. rewrite Hsr. reflexivity.
  - intros Hsr. apply Z.eqb_eq in Hsr. rewrite Hsr. cbn [bind].
    destruct (PipelineConfig.get_end_time cfg source) as [end_time|e] eqn:He;
      cbn [bind].
    + split; [reflexivity | intros msg H; discriminate H].
    + split; [reflexivity|]. apply get_end_time_errors in He. subst e.
      intros msg H. discriminate H.
Qed.

(** C4: the stream that feeds the segmentation branch, the embedding
    branch and the waveform output is the source's own stream when the
    source is regular, and is [regularize_stream(duration, step,
    sample_rate)] applied to the whole source stream when it is not: one
    choice made from [is_regular] when the pipeline is set up. *)
Theorem from_source_regularizes_iff_irregular
    (streams : OnlineSpeakerTracking.args) :
  OnlineSpeakerDiarization.from_source_streams self source output_waveform
    = Ok streams ->
  exists regular : list (SlidingWindowFeature Samples),
    (AudioSource.is_regular source = true ->
     regular = AudioSource.stream source) /\
    (AudioSource.is_regular source = false ->
     regular =
     regularize_stream (PipelineConfig.duration cfg)
       (PipelineConfig.step cfg) (AudioSource.sample_rate source)
       (AudioSource.stream source)) /\
    OnlineSpeakerTracking.segmentation_stream streams =
      ops_map (FrameWiseModel_call (PipelineConfig.segmentation cfg)) regular /\
    OnlineSpeakerTracking.embedding_stream streams =
      ops_map (window_embedding self) regular /\
    OnlineSpeakerTracking.audio_chunk_stream streams =
      (if output_waveform then Some regular else None).
Proof.
  intros H. apply from_source_streams_ok in H.
  destruct H as (_ & end_time & _ & ->).
  exists (regular_stream self source).
  split; [|split]; [| |repeat split].
  - unfold regular_stream. intros ->. reflexivity.
  - unfold regular_stream. intros ->. reflexivity.
Qed.
End SourceStreams.

(** ** The embedding branch *)

Section Embeddings.
Context {E : Externals}.
Variable self : OnlineSpeakerDiarization.t.

Let cfg : PipelineConfig.t := OnlineSpeakerDiarization.config self.
Let osp : OverlappedSpeechPenalty.t :=
  {| OverlappedSpeechPenalty.gamma := PipelineConfig.gamma cfg;
     OverlappedSpeechPenalty.beta := PipelineConfig.beta cfg |}.
Let emb_norm : EmbeddingNormalization.t :=
  {| EmbeddingNormalization.norm := 1 |}.

(** C5: in live mode and in batch-from-file mode alike, the embedding
    stream handed to the tracking stage holds, for each window in order,
    the embedding model applied to the window and to the overlapped speech
    penalty (with the configured gamma and beta) of that window's
    segmentation, normalized with norm 1; it is aligned with the
    segmentation stream it is zipped with. *)
Theorem embeddings_penalized_then_normalized :
  (forall (source : AudioSource.t (SlidingWindowFeature Samples))
          (output_waveform : bool) (streams : OnlineSpeakerTracking.args),
     OnlineSpeakerDiarization.from_source_streams self source
       output_waveform = Ok streams ->
     OnlineSpeakerTracking.segmentation_stream streams =
       map (FrameWiseModel_call (PipelineConfig.segmentation cfg))
         (regular_stream self source) /\
     OnlineSpeakerTracking.embedding_stream streams =
       map (fun wave =>
              EmbeddingNormalization_call emb_norm
                (ChunkWiseModel_call (PipelineConfig.embedding cfg) wave
                   (OverlappedSpeechPenalty_call osp
                      (FrameWiseModel_call
                         (PipelineConfig.segmentation cfg) wave))))
         (regular_stream self source)) /\
  (forall (file : string) (output_waveform : bool) (batch_size : Z)
          (streams : OnlineSpeakerTracking.args),
     OnlineSpeakerDiarization.from_file_streams self file output_waveform
       batch_size = Ok streams ->
     map data (OnlineSpeakerTracking.segmentation_stream streams) =
       map (FrameWiseModel_row (PipelineConfig.segmentation cfg))
         (file_chunks self file) /\
     OnlineSpeakerTracking.embedding_stream streams =
       map (fun chunk =>
              EmbeddingNormalization_call emb_norm
                (ChunkWiseModel_row (PipelineConfig.embedding cfg) chunk
                   (OverlappedSpeechPenalty_row osp
                      (FrameWiseModel_row
                         (PipelineConfig.segmentation cfg) chunk))))
         (file_chunks self file)).
Proof.
  split.
  - intros source output_waveform streams H.
    apply from_source_streams_ok in H.
    destruct H as (_ & end_time & _ & ->). split; reflexivity.
  - intros file output_waveform batch_size streams H.
    destruct (from_file_streams_inv _ _ _ _ H) as [Hpos Hne].
    rewrite (from_file_streams_eq self file output_waveform Hpos Hne) in H.
    destruct (py_mod _ _) as [end_time|]; [|discriminate]. cbn [bind] in H.
    destruct (py_div _ _) as [resolution|]; [|discriminate]. cbn [bind] in H.
    destruct (py_div _ _) as [wav_resolution|]; [|discriminate].
    cbn [bind] in H. injection H as <-. split; [|reflexivity].
    cbn [OnlineSpeakerTracking.segmentation_stream file_streams].
    rewrite map_map. cbn [data file_window].
    apply (map_snd_combine (rx_range 0 _)
             (map (row_segmentation self) (file_chunks self file))).
    rewrite rx_range_count, length_map. reflexivity.
Qed.
End Embeddings.

(** ** Stateful stages *)

Section Stateful.
Context {S A B C : Type}.
Variable call : S -> A -> B -> S * C.

Lemma ops_starmap_stateful_length (state : S) (s : list (A * B)) :
  List.length (ops_starmap_stateful call state s) = List.length s.
Proof.
  revert state. induction s as [|[a b] s IH]; intros state; [reflexivity|].
  cbn. destruct (call state a b) as [state' c]. cbn. f_equal. apply IH.
Qed.

End Stateful.

(** ** from_model_streams *)

Section Tracking.
Context {E : Externals}.
Variables (self : OnlineSpeakerTracking.t) (uri : string).
Variable end_time : option Q.
Variable segmentation_stream : list (SlidingWindowFeature Activations).
Variable embedding_stream : list Embedding.

Let cfg : PipelineConfig.t := OnlineSpeakerTracking.config self.

Local Abbreviation the_clustered :=
  (clustered self segmentation_stream embedding_stream).
Local Abbreviation the_annotations :=
  (annotations self uri end_time segmentation_stream embedding_stream).

Lemma from_model_streams_eq
    (audio_chunk_stream : option (list (SlidingWindowFeature Samples))) :
  OnlineSpeakerTracking.from_model_streams self uri end_time
    segmentation_stream embedding_stream audio_chunk_stream =
  match audio_chunk_stream with
  | Some chunks =>
      map (fun aw => (fst aw, Some (snd aw)))
        (combine the_annotations (waveforms self end_time chunks))
  | None => map (fun ann => (ann, None)) the_annotations
  end.
Proof.
  unfold OnlineSpeakerTracking.from_model_streams, annotations, annotate,
    waveforms, clustered, delayed, cosine_clustering, ops_map, rx_zip.
  cbv zeta. destruct audio_chunk_stream; rewrite ?map_map; reflexivity.
Qed.

Lemma clustered_length :
  List.length the_clustered =
  List.length (rx_zip segmentation_stream embedding_stream).
Proof. unfold clustered. apply ops_starmap_stateful_length. Qed.


Lemma nth_error_combine {X Y : Type} (xs : list X) (ys : list Y) (i : nat)
    (x : X) (y : Y) :
  nth_error (combine xs ys) i = Some (x, y) <->
  nth_error xs i = Some x /\ nth_error ys i = Some y.
Proof.
  revert ys i. induction xs as [|x' xs IH]; intros [|y' ys] [|i]; cbn;
    try (split; [discriminate | intros [H1 H2]; discriminate]).
  - split; [intros H; injection H as -> ->; auto|].
    intros [H1 H2]. congruence.
  - apply IH.
Qed.

(** C7: every emitted element is a pair of an annotation and an optional
    waveform.  Without an audio chunk stream the elements are the
    annotations, each paired with [None]; with one, the i-th element pairs
    the i-th annotation with the i-th window of the waveform branch. *)
Theorem outputs_pair_annotation_with_optional_waveform :
  (OnlineSpeakerTracking.from_model_streams self uri end_time
     segmentation_stream embedding_stream None =
   map (fun ann => (ann, None)) the_annotations /\
   Forall (fun out => snd out = None)
     (OnlineSpeakerTracking.from_model_streams self uri end_time
        segmentation_stream embedding_stream None)) /\
  forall chunks : list (SlidingWindowFeature Samples),
    let out :=
      OnlineSpeakerTracking.from_model_streams self uri end_time
        segmentation_stream embedding_stream (Some chunks) in
    Forall (fun o => exists w, snd o = Some w) out /\
    List.length out =
      Nat.min (List.length the_annotations)
        (List.length (waveforms self end_time chunks)) /\
    forall (i : nat) (ann : Annotation)
           (w : option (SlidingWindowFeature Samples)),
      nth_error out i = Some (ann, w) <->
      exists wave,
        w = Some wave /\
        nth_error the_annotations i = Some ann /\
        nth_error (waveforms self end_time chunks) i = Some wave.
Proof.
  split.
  - rewrite from_model_streams_eq. split; [reflexivity|].
    apply Forall_map, Forall_forall. reflexivity.
  - intros chunks. cbv zeta. rewrite from_model_streams_eq.
    split; [|split].
    + apply Forall_map, Forall_forall. intros [ann wave] _. cbn. eauto.
    + rewrite length_map. apply length_combine.
    + intros i ann w. rewrite nth_error_map.
      destruct (nth_error (combine _ _) i) as [[ann' wave']|] eqn:Hn; cbn.
      * apply nth_error_combine in Hn. destruct Hn as [Ha Hw]. split.
        -- intros H. injection H as -> <-. eauto.
        -- intros (wave & -> & Ha' & Hw'). congruence.
      * split; [discriminate|]. intros (wave & -> & Ha' & Hw').
        assert (Hc : nth_error
                       (combine the_annotations
                          (waveforms self end_time chunks)) i
                     = Some (ann, wave))
          by (apply nth_error_combine; auto).
        congruence.
Qed.



End Tracking.

(** ** The stream end time of the two entry points *)

Section EndTimes.
Context {E : Externals}.
Variable self : OnlineSpeakerDiarization.t.
Variable source : AudioSource.t (SlidingWindowFeature Samples).
Variable file : string.

Let cfg : PipelineConfig.t := OnlineSpeakerDiarization.config self.

(** C1 fails on the code: for a source that announces the duration of the
    file, with a positive duration and step, the end time [from_file]
    hands to the tracking stage is never the one [from_source] hands to
    it. *)
Theorem from_file_end_time_differs_from_live
    (output_waveform output_waveform' : bool) (batch_size : Z)
    (live batch : OnlineSpeakerTracking.args) :
  AudioSource.duration source = Some (get_duration (file_loader self) file) ->
  0 < get_duration (file_loader self) file ->
  0 < PipelineConfig.step cfg ->
  OnlineSpeakerDiarization.from_source_streams self source output_waveform
    = Ok live ->
  OnlineSpeakerDiarization.from_file_streams self file output_waveform'
    batch_size = Ok batch ->
  exists e_live e_file : Q,
    OnlineSpeakerTracking.end_time live = Some e_live /\
    OnlineSpeakerTracking.end_time batch = Some e_file /\
    e_live == get_duration (file_loader self) file - e_file /\
    ~ e_live == e_file.
Proof.
  intros Hd Hpos Hstep Hlive Hbatch.
  set (d := get_duration (file_loader self) file) in *.
  destruct (py_mod_bounds d Hstep) as (r & Hr & _).
  apply from_source_streams_ok in Hlive.
  destruct Hlive as (_ & end_time & Hend & ->).
  unfold PipelineConfig.get_end_time in Hend. fold cfg in Hend.
  rewrite Hd, Hr in Hend. cbn [bind] in Hend. injection Hend as <-.
  destruct (from_file_streams_inv _ _ _ _ Hbatch) as [Hb Hne].
  rewrite (from_file_streams_eq self file output_waveform' Hb Hne) in Hbatch.
  fold cfg d in Hbatch. rewrite Hr in Hbatch. cbn [bind] in Hbatch.
  destruct (py_div _ _) as [resolution|]; [|discriminate].
  cbn [bind] in Hbatch.
  destruct (py_div _ _) as [wav_resolution|]; [|discriminate].
  cbn [bind] in Hbatch. injection Hbatch as <-.
  exists (d - r), r. repeat split; try reflexivity.
  exact (remainder_is_not_rounded_duration Hstep Hpos Hr).
Qed.
End EndTimes.

(** ** Batching and alignment of the handed-over streams *)

Section Alignment.
Context {E : Externals}.
Variable self : OnlineSpeakerDiarization.t.

Lemma from_file_streams_no_chunks (file : string) (output_waveform : bool)
    (batch_size : Z) :
  (0 < batch_size)%Z -> file_chunks self file = [] ->
  OnlineSpeakerDiarization.from_file_streams self file output_waveform
    batch_size =
  (py_mod (get_duration (file_loader self) file)
     (PipelineConfig.step (OnlineSpeakerDiarization.config self)) ;;;
   Err (ValueError "need at least one array to concatenate")).
Proof.
  intros Hpos Hnil.
  unfold OnlineSpeakerDiarization.from_file_streams. cbv zeta.
  fold (file_loader self). fold (file_chunks self file). rewrite Hnil.
  destruct (py_mod _ _) as [end_time|e]; [|reflexivity]. cbn [bind].
  unfold py_range. destruct (Z.eqb_spec batch_size 0) as [|_]; [lia|].
  unfold range_length. destruct (Z.ltb_spec 0 batch_size) as [_|]; [|lia].
  reflexivity.
Qed.

(** X1: the size of the batches in which [from_file] runs the models
    does not change what it hands to the tracking stage. *)
Theorem from_file_streams_any_batch_size (file : string)
    (output_waveform : bool) (batch_size batch_size' : Z) :
  (0 < batch_size)%Z -> (0 < batch_size')%Z ->
  OnlineSpeakerDiarization.from_file_streams self file output_waveform
    batch_size =
  OnlineSpeakerDiarization.from_file_streams self file output_waveform
    batch_size'.
Proof.
  intros Hpos Hpos'.
  destruct (file_chunks self file) as [|chunk chunks] eqn:Hc.
  - rewrite !from_file_streams_no_chunks by assumption. reflexivity.
  - assert (Hne : file_chunks self file <> []) by (rewrite Hc; discriminate).
    rewrite !from_file_streams_eq by assumption. reflexivity.
Qed.

(** X2: the streams both entry points hand to the tracking stage have one
    item per window: segmentation, embedding and audio chunk streams are
    equally long. *)
Theorem entry_points_hand_over_aligned_streams :
  (forall (source : AudioSource.t (SlidingWindowFeature Samples))
          (output_waveform : bool) (streams : OnlineSpeakerTracking.args),
     OnlineSpeakerDiarization.from_source_streams self source
       output_waveform = Ok streams ->
     List.length (OnlineSpeakerTracking.segmentation_stream streams) =
       List.length (OnlineSpeakerTracking.embedding_stream streams) /\
     forall chunks,
       OnlineSpeakerTracking.audio_chunk_stream streams = Some chunks ->
       List.length chunks =
       List.length
         (rx_zip (OnlineSpeakerTracking.segmentation_stream streams)
            (OnlineSpeakerTracking.embedding_stream streams))) /\
  (forall (file : string) (output_waveform : bool) (batch_size : Z)
          (streams : OnlineSpeakerTracking.args),
     OnlineSpeakerDiarization.from_file_streams self file output_waveform
       batch_size = Ok streams ->
     List.length (OnlineSpeakerTracking.segmentation_stream streams) =
       List.length (OnlineSpeakerTracking.embedding_stream streams) /\
     forall chunks,
       OnlineSpeakerTracking.audio_chunk_stream streams = Some chunks ->
       List.length chunks =
       List.length
         (rx_zip (OnlineSpeakerTracking.segmentation_stream streams)
            (OnlineSpeakerTracking.embedding_stream streams))).
Proof.
  split.
  - intros source output_waveform streams H.
    apply from_source_streams_ok in H.
    destruct H as (_ & end_time & _ & ->). cbn.
    unfold rx_zip. rewrite length_combine, !length_map, Nat.min_id.
    split; [reflexivity|].
    destruct output_waveform; [|discriminate].
    intros chunks Hc. injection Hc as <-. reflexivity.
  - intros file output_waveform batch_size streams H.
    destruct (from_file_streams_inv _ _ _ _ H) as [Hpos Hne].
    rewrite (from_file_streams_eq self file output_waveform Hpos Hne) in H.
    destruct (py_mod _ _) as [end_time|]; [|discriminate]. cbn [bind] in H.
    destruct (py_div _ _) as [resolution|]; [|discriminate]. cbn [bind] in H.
    destruct (py_div _ _) as [wav_resolution|]; [|discriminate].
    cbn [bind] in H. injection H as <-. cbn.
    unfold rx_zip.
    rewrite !length_combine, !length_map, !length_combine, !length_map.
    rewrite rx_range_count, !Nat.min_id.
    split; [reflexivity|].
    destruct output_waveform; [|discriminate].
    intros chunks Hc. injection Hc as <-.
    rewrite length_map, length_combine, rx_range_count, Nat.min_id.
    reflexivity.
Qed.
End Alignment.

(** ** More on PipelineConfig.get_end_time *)



Section EndTimeOrder.
Context {Item : Type}.
Variable self : PipelineConfig.t.



End EndTimeOrder.

(** ** When the entry points succeed *)

Lemma inject_Z_zero (z : Z) : inject_Z z == 0 <-> z = 0%Z.
Proof.
  unfold Qeq. cbn. rewrite Z.mul_1_r. reflexivity.
Qed.

Lemma py_div_ok_iff (a b : Q) : succeeds (py_div a b) <-> ~ b == 0.
Proof.
  unfold py_div. destruct (is_zero b) eqn:Ez.
  - apply is_zero_iff in Ez. split; [intros [r H]; discriminate | tauto].
  - split; [|intros _; eexists; reflexivity].
    intros _ H. apply is_zero_iff in H. congruence.
Qed.

Lemma py_mod_ok_iff (a b : Q) : succeeds (py_mod a b) <-> ~ b == 0.
Proof.
  unfold py_mod. destruct (is_zero b) eqn:Ez.
  - apply is_zero_iff in Ez. split; [intros [r H]; discriminate | tauto].
  - split; [|intros _; eexists; reflexivity].
    intros _ H. apply is_zero_iff in H. congruence.
Qed.

Section Success.
Context {E : Externals}.
Variable self : OnlineSpeakerDiarization.t.

Let cfg : PipelineConfig.t := OnlineSpeakerDiarization.config self.


Variables (file : string) (output_waveform : bool) (batch_size : Z).

Lemma from_file_succeeds_streams :
  succeeds
    (OnlineSpeakerDiarization.from_file self file output_waveform batch_size)
  <->
  succeeds
    (OnlineSpeakerDiarization.from_file_streams self file output_waveform
       batch_size).
Proof.
  unfold OnlineSpeakerDiarization.from_file.
  destruct (OnlineSpeakerDiarization.from_file_streams _ _ _ _); cbn [bind].
  - split; intros _; eexists; reflexivity.
  - split; intros [r H]; discriminate.
Qed.

(** X6: [from_file] returns a pipeline exactly when the step is not zero,
    the batch size is positive, the file yields at least one chunk, the
    segmentation has at least one frame per chunk and the sample rate is
    not zero. *)
Theorem from_file_succeeds_iff :
  succeeds
    (OnlineSpeakerDiarization.from_file self file output_waveform batch_size)
  <->
  ~ PipelineConfig.step cfg == 0 /\
  (0 < batch_size)%Z /\
  file_chunks self file <> [] /\
  OnlineSpeakerDiarization.shape_1
    (map (row_segmentation self) (file_chunks self file)) <> 0%Z /\
  PipelineConfig.sample_rate cfg <> 0%Z.
Proof.
  rewrite from_file_succeeds_streams. split.
  - intros [streams H].
    destruct (from_file_streams_inv _ _ _ _ H) as [Hpos Hne].
    rewrite (from_file_streams_eq self file output_waveform Hpos Hne) in H.
    fold cfg in H.
    destruct (py_mod _ _) as [end_time|] eqn:Em; [|discriminate].
    cbn [bind] in H.
    destruct (py_div (PipelineConfig.duration cfg) _) as [resolution|] eqn:Er;
      [|discriminate].
    cbn [bind] in H.
    destruct (py_div 1 _) as [wav_resolution|] eqn:Ew; [|discriminate].
    assert (Hm : succeeds (py_mod (get_duration (file_loader self) file)
                             (PipelineConfig.step cfg)))
      by (eexists; exact Em).
    assert (Hr : succeeds (py_div (PipelineConfig.duration cfg)
                             (inject_Z (OnlineSpeakerDiarization.shape_1
                                (map (row_segmentation self)
                                   (file_chunks self file))))))
      by (eexists; exact Er).
    assert (Hw : succeeds (py_div 1
                             (inject_Z (PipelineConfig.sample_rate cfg))))
      by (eexists; exact Ew).
    apply py_mod_ok_iff in Hm. apply py_div_ok_iff in Hr, Hw.
    rewrite inject_Z_zero in Hr, Hw. repeat split; assumption.
  - intros (Hs & Hpos & Hne & Hf & Hsr).
    rewrite (from_file_streams_eq self file output_waveform Hpos Hne).
    fold cfg.
    destruct (proj2 (py_mod_ok_iff (get_duration (file_loader self) file)
                       (PipelineConfig.step cfg)) Hs) as [end_time ->].
    cbn [bind].
    rewrite <- inject_Z_zero in Hf, Hsr.
    destruct (proj2 (py_div_ok_iff (PipelineConfig.duration cfg) _) Hf)
      as [resolution ->].
    cbn [bind].
    destruct (proj2 (py_div_ok_iff 1 _) Hsr) as [wav_resolution ->].
    cbn [bind]. eexists. reflexivity.
Qed.

(** X7: the exceptions of [from_file], in the order its statements raise
    them: a zero step raises ZeroDivisionError before the file's chunks
    are looked at; otherwise a zero batch size raises the ValueError of
    [range], and a negative batch size or a file without chunks the
    ValueError of stacking no arrays. *)
Theorem from_file_raises :
  (PipelineConfig.step cfg == 0 ->
   OnlineSpeakerDiarization.from_file self file output_waveform batch_size =
   Err ZeroDivisionError) /\
  (~ PipelineConfig.step cfg == 0 -> batch_size = 0%Z ->
   OnlineSpeakerDiarization.from_file self file output_waveform batch_size =
   Err (ValueError "range() arg 3 must not be zero")) /\
  (~ PipelineConfig.step cfg == 0 ->
   (batch_size < 0)%Z \/ ((0 < batch_size)%Z /\ file_chunks self file = []) ->
   OnlineSpeakerDiarization.from_file self file output_waveform batch_size =
   Err (ValueError "need at least one array to concatenate")).
Proof.
  unfold OnlineSpeakerDiarization.from_file,
    OnlineSpeakerDiarization.from_file_streams.
  cbv zeta. fold (file_loader self). fold (file_chunks self file). fold cfg.
  split; [|split].
  - intros Hs. rewrite (py_mod_zero _ Hs). reflexivity.
  - intros Hs ->. rewrite (py_mod_nonzero _ Hs). reflexivity.
  - intros Hs Hb. rewrite (py_mod_nonzero _ Hs). cbn [bind].
    assert (Hr : py_range 0 (Z.of_nat (List.length (file_chunks self file)))
                   batch_size = Ok []).
    { unfold py_range, range_length. destruct Hb as [Hneg|[Hpos Hnil]].
      - destruct (Z.eqb_spec batch_size 0) as [|_]; [lia|].
        destruct (Z.ltb_spec 0 batch_size) as [|_]; [lia|].
        destruct (Z.ltb_spec
                    (Z.of_nat (List.length (file_chunks self file))) 0)
          as [|_]; [lia|].
        reflexivity.
      - rewrite Hnil.
        destruct (Z.eqb_spec batch_size 0) as [|_]; [lia|].
        destruct (Z.ltb_spec 0 batch_size) as [_|]; [|lia].
        reflexivity. }
    rewrite Hr. reflexivity.
Qed.

(** X8: the stream end [from_file] hands to the tracking stage is the
    remainder of the file's duration by the step: for a positive step it
    lies in [0, step), whatever the length of the file, and the duration
    minus it is a multiple of the step. *)
Theorem from_file_end_time_below_step (streams : OnlineSpeakerTracking.args) :
  0 < PipelineConfig.step cfg ->
  OnlineSpeakerDiarization.from_file_streams self file output_waveform
    batch_size = Ok streams ->
  exists e : Q,
    OnlineSpeakerTracking.end_time streams = Some e /\
    0 <= e /\ e < PipelineConfig.step cfg /\
    multiple_of (PipelineConfig.step cfg)
      (get_duration (file_loader self) file - e).
Proof.
  intros Hs H.
  destruct (from_file_streams_inv _ _ _ _ H) as [Hpos Hne].
  rewrite (from_file_streams_eq self file output_waveform Hpos Hne) in H.
  fold cfg in H.
  set (d := get_duration (file_loader self) file) in *.
  rewrite py_mod_nonzero in H by lra. cbn [bind] in H.
  destruct (py_div _ _) as [resolution|]; [|discriminate]. cbn [bind] in H.
  destruct (py_div _ _) as [wav_resolution|]; [|discriminate].
  cbn [bind] in H.
  match type of H with
  | Ok ?x = _ => assert (Hst : x = streams) by congruence
  end.
  rewrite <- Hst. clear H Hst.
  exists (d - PipelineConfig.step cfg
              * inject_Z (Qfloor (d / PipelineConfig.step cfg))).
  split; [reflexivity|].
  pose proof (floor_multiple_le d Hs). pose proof (floor_multiple_gt d Hs).
  split; [lra|]. split; [lra|].
  exists (Qfloor (d / PipelineConfig.step cfg)). ring.
Qed.
End Success.

(** ** The batches and the windows of from_file *)

Lemma nth_error_indexed {A : Type} (g : nat -> Z) (l : list A)
    (start i : nat) :
  nth_error (combine (map g (seq start (List.length l))) l) i =
  option_map (fun x => (g (start + i)%nat, x)) (nth_error l i).
Proof.
  revert start i. induction l as [|x l IH]; intros start [|i]; cbn;
    try reflexivity.
  - rewrite Nat.add_0_r. reflexivity.
  - rewrite IH. replace (S start + i)%nat with (start + S i)%nat by lia.
    reflexivity.
Qed.

Lemma nth_error_rx_range {A : Type} (l : list A) (i : nat) :
  nth_error (combine (rx_range 0 (Z.of_nat (List.length l))) l) i =
  option_map (fun x => (Z.of_nat i, x)) (nth_error l i).
Proof.
  rewrite rx_range_length.
  rewrite (nth_error_indexed
             (fun k => Z.of_nat (List.length (@nil A) + k)) l 0 i).
  reflexivity.
Qed.

Lemma py_div_inverse (a b r : Q) : py_div a b = Ok r -> r * b == a.
Proof.
  unfold py_div. destruct (is_zero b) eqn:Ez; [discriminate|].
  intros H. assert (Hr : a / b = r) by congruence. rewrite <- Hr.
  field. intros Hb. apply is_zero_iff in Hb. congruence.
Qed.

Section FileWindows.
Context {E : Externals}.
Variable self : OnlineSpeakerDiarization.t.

Let cfg : PipelineConfig.t := OnlineSpeakerDiarization.config self.

(** X9: every model call of the batching loop of [from_file] is on a
    batch that is not empty and holds at most [batch_size] chunks; the
    loop runs [ceil(num_chunks / batch_size)] times, and the batches, in
    order, are the chunks. *)
Theorem from_file_batches_bounded (chunks : list Samples) (batch_size : Z)
    (starts : list Z) :
  (0 < batch_size)%Z ->
  py_range 0 (Z.of_nat (List.length chunks)) batch_size = Ok starts ->
  let batches :=
    fold_left (OnlineSpeakerDiarization.from_file_batch self chunks batch_size)
      starts ([], []) in
  Forall (fun seg : list Activations =>
            (0 < List.length seg <= Z.to_nat batch_size)%nat)
    (fst batches) /\
  Z.of_nat (List.length (fst batches)) =
    ((Z.of_nat (List.length chunks) + batch_size - 1) / batch_size)%Z /\
  List.concat (fst batches) = map (row_segmentation self) chunks /\
  List.concat (snd batches) = map (row_embedding self) chunks.
Proof.
  intros Hpos Hr. cbv zeta. rewrite from_file_batches. cbn [fst snd app].
  pose proof (batches_cover_chunks chunks Hpos Hr) as Hcover.
  assert (Hcat : forall (B : Type) (f : Samples -> B),
             List.concat
               (map (fun i => map f (batch_at chunks batch_size i)) starts)
             = map f chunks).
  { intros B f.
    rewrite <- (map_map (batch_at chunks batch_size) (map f)).
    rewrite <- concat_map, Hcover. reflexivity. }
  split; [|split; [|split; apply Hcat]].
  - unfold py_range in Hr.
    destruct (Z.eqb_spec batch_size 0) as [|_]; [lia|].
    assert (Hs : map (fun k => (0 + batch_size * Z.of_nat k)%Z)
                   (seq 0 (range_length 0 (Z.of_nat (List.length chunks))
                             batch_size)) = starts) by congruence.
    rewrite <- Hs, map_map. apply Forall_map, Forall_forall.
    intros k Hk. apply in_seq in Hk.
    rewrite length_map, (batch_at_block chunks Hpos k).
    rewrite length_firstn, length_skipn.
    assert (Hlt : (k * Z.to_nat batch_size < List.length chunks)%nat).
    { unfold range_length in Hk.
      destruct (Z.ltb_spec 0 batch_size) as [_|]; [|lia].
      destruct (Z.ltb_spec 0 (Z.of_nat (List.length chunks))) as [Hn|Hn];
        [|cbn in Hk; lia].
      pose proof (Z.mul_div_le (Z.of_nat (List.length chunks) - 1 - 0)
                    batch_size Hpos) as Hq.
      pose proof (Z.div_pos (Z.of_nat (List.length chunks) - 1 - 0)
                    batch_size) as Hq0.
      apply Nat2Z.inj_lt. rewrite Nat2Z.inj_mul, Z2Nat.id by lia.
      assert (Hk' : (Z.of_nat k
                     <= (Z.of_nat (List.length chunks) - 1 - 0)
                        / batch_size)%Z) by lia.
      nia. }
    lia.
  - rewrite length_map.
    unfold py_range in Hr.
    destruct (Z.eqb_spec batch_size 0) as [|_]; [lia|].
    assert (Hs : map (fun k => (0 + batch_size * Z.of_nat k)%Z)
                   (seq 0 (range_length 0 (Z.of_nat (List.length chunks))
                             batch_size)) = starts) by congruence.
    rewrite <- Hs, length_map, length_seq. unfold range_length.
    destruct (Z.ltb_spec 0 batch_size) as [_|]; [|lia].
    destruct (Z.ltb_spec 0 (Z.of_nat (List.length chunks))) as [Hn|Hn].
    + pose proof (Z.div_pos (Z.of_nat (List.length chunks) - 1 - 0)
                    batch_size) as Hq0.
      rewrite Z2Nat.id by lia.
      replace (Z.of_nat (List.length chunks) + batch_size - 1)%Z
        with (Z.of_nat (List.length chunks) - 1 - 0 + 1 * batch_size)%Z
        by lia.
      rewrite Z.div_add by lia. lia.
    + replace (Z.of_nat (List.length chunks)) with 0%Z by lia.
      rewrite Z.div_small by lia. reflexivity.
Qed.

(** X10: in the streams of a successful [from_file], the i-th
    segmentation window and the i-th audio chunk start at [i * step] and
    carry the segmentation of the i-th chunk and the i-th chunk itself;
    the frame resolution times the number of frames is the configured
    duration, and the waveform resolution times the sample rate is 1. *)
Theorem from_file_windows (file : string) (output_waveform : bool)
    (batch_size : Z) (streams : OnlineSpeakerTracking.args) :
  OnlineSpeakerDiarization.from_file_streams self file output_waveform
    batch_size = Ok streams ->
  exists resolution wav_resolution : Q,
    resolution
      * inject_Z (OnlineSpeakerDiarization.shape_1
                    (map (row_segmentation self) (file_chunks self file)))
      == PipelineConfig.duration cfg /\
    wav_resolution * inject_Z (PipelineConfig.sample_rate cfg) == 1 /\
    (forall (i : nat) (w : SlidingWindowFeature Activations),
       nth_error (OnlineSpeakerTracking.segmentation_stream streams) i
         = Some w <->
       exists chunk : Samples,
         nth_error (file_chunks self file) i = Some chunk /\
         w = {| data :=
                  FrameWiseModel_row (PipelineConfig.segmentation cfg) chunk;
                sliding_window :=
                  {| sw_duration := resolution;
                     sw_step := resolution;
                     sw_start :=
                       inject_Z (Z.of_nat i) * PipelineConfig.step cfg |} |})
    /\
    (output_waveform = true ->
     exists chunks : list (SlidingWindowFeature Samples),
       OnlineSpeakerTracking.audio_chunk_stream streams = Some chunks /\
       forall (i : nat) (w : SlidingWindowFeature Samples),
         nth_error chunks i = Some w <->
         exists chunk : Samples,
           nth_error (file_chunks self file) i = Some chunk /\
           w = {| data := chunk;
                  sliding_window :=
                    {| sw_duration := wav_resolution;
                       sw_step := wav_resolution;
                       sw_start :=
                         inject_Z (Z.of_nat i)
                         * PipelineConfig.step cfg |} |}).
Proof.
  intros H.
  destruct (from_file_streams_inv _ _ _ _ H) as [Hpos Hne].
  rewrite (from_file_streams_eq self file output_waveform Hpos Hne) in H.
  fold cfg in H.
  destruct (py_mod _ _) as [end_time|]; [|discriminate]. cbn [bind] in H.
  destruct (py_div (PipelineConfig.duration cfg) _) as [resolution|] eqn:Er;
    [|discriminate].
  cbn [bind] in H.
  destruct (py_div 1 _) as [wav_resolution|] eqn:Ew; [|discriminate].
  cbn [bind] in H.
  match type of H with
  | Ok ?x = _ => assert (Hst : x = streams) by congruence
  end.
  rewrite <- Hst. clear H Hst.
  exists resolution, wav_resolution.
  split; [exact (py_div_inverse _ _ Er)|].
  split; [exact (py_div_inverse _ _ Ew)|].
  cbn [OnlineSpeakerTracking.segmentation_stream
         OnlineSpeakerTracking.audio_chunk_stream file_streams].
  split.
  - intros i w. rewrite nth_error_map.
    rewrite <- (length_map (row_segmentation self) (file_chunks self file)).
    rewrite nth_error_rx_range, nth_error_map.
    destruct (nth_error (file_chunks self file) i) as [chunk|]; cbn.
    + split.
      * intros Hw. exists chunk. split; [reflexivity|].
        injection Hw as <-. reflexivity.
      * intros (chunk' & Hc & ->). injection Hc as <-. reflexivity.
    + split; [discriminate|]. intros (chunk' & Hc & _). discriminate.
  - intros ->. eexists. split; [reflexivity|].
    intros i w. rewrite nth_error_map, nth_error_rx_range.
    destruct (nth_error (file_chunks self file) i) as [chunk|]; cbn.
    + split.
      * intros Hw. exists chunk. split; [reflexivity|].
        injection Hw as <-. reflexivity.
      * intros (chunk' & Hc & ->). injection Hc as <-. reflexivity.
    + split; [discriminate|]. intros (chunk' & Hc & _). discriminate.
Qed.
End FileWindows.

(** ** The tracking stage is online, and the waveform is only added *)



Lemma map_unit_length {A B : Type} (a : list A) (b : list B) :
  List.length a = List.length b ->
  map (fun _ => tt) a = map (fun _ => tt) b.
Proof.
  revert b. induction a as [|x a IH]; intros [|y b] H; try discriminate;
    [reflexivity|].
  cbn. f_equal. apply IH. cbn in H. lia.
Qed.

Section Online.
Context {E : Externals}.

(** The sliding buffer emits as many buffers for two streams of the same
    length. *)
Lemma buffer_slide_count {A B : Type} (n : Z) (a : list A) (b : list B) :
  buffer_slide_natural ->
  List.length a = List.length b ->
  List.length (buffer_slide n a) = List.length (buffer_slide n b).
Proof.
  intros Hnat Hlen.
  rewrite <- (length_map (map (fun _ => tt)) (buffer_slide n a)).
  rewrite <- (length_map (map (fun _ => tt)) (buffer_slide n b)).
  rewrite <- !Hnat, (map_unit_length a b Hlen). reflexivity.
Qed.

Section Stage.
Variables (self : OnlineSpeakerTracking.t) (uri : string).
Variable end_time : option Q.
Variable segmentation_stream : list (SlidingWindowFeature Activations).
Variable embedding_stream : list Embedding.


Lemma annotations_with_waveform
    (chunks : list (SlidingWindowFeature Samples)) :
  buffer_slide_natural ->
  List.length chunks =
    List.length (rx_zip segmentation_stream embedding_stream) ->
  map fst
    (OnlineSpeakerTracking.from_model_streams self uri end_time
       segmentation_stream embedding_stream (Some chunks)) =
  map fst
    (OnlineSpeakerTracking.from_model_streams self uri end_time
       segmentation_stream embedding_stream None).
Proof.
  intros Hnat Hlen. rewrite !from_model_streams_eq, !map_map. cbn [fst].
  rewrite map_id.
  rewrite <- (map_map fst (fun a : Annotation => a)), map_id.
  apply map_fst_combine.
  unfold annotations, waveforms. rewrite !length_map.
  apply buffer_slide_count; [exact Hnat|].
  rewrite clustered_length. symmetry. exact Hlen.
Qed.
End Stage.

Variable self : OnlineSpeakerDiarization.t.

Lemma from_file_streams_same_failure (file : string)
    (output_waveform output_waveform' : bool) (batch_size : Z) :
  fmap (fun _ => tt)
    (OnlineSpeakerDiarization.from_file_streams self file output_waveform
       batch_size) =
  fmap (fun _ => tt)
    (OnlineSpeakerDiarization.from_file_streams self file output_waveform'
       batch_size).
Proof.
  unfold OnlineSpeakerDiarization.from_file_streams. cbv zeta.
  repeat match goal with
         | |- context [bind ?m _] => destruct m; cbn [bind fmap]
         end; reflexivity.
Qed.

(** X12: asking an entry point for the waveform only adds it: when the
    sliding buffer treats items as opaque, [from_source] and [from_file]
    emit the same annotations, or raise the same exception, with
    [output_waveform] true and false. *)
Theorem waveform_request_keeps_annotations :
  buffer_slide_natural ->
  (forall source : AudioSource.t (SlidingWindowFeature Samples),
     fmap (map fst)
       (OnlineSpeakerDiarization.from_source self source true) =
     fmap (map fst)
       (OnlineSpeakerDiarization.from_source self source false)) /\
  (forall (file : string) (batch_size : Z),
     fmap (map fst)
       (OnlineSpeakerDiarization.from_file self file true batch_size) =
     fmap (map fst)
       (OnlineSpeakerDiarization.from_file self file false batch_size)).
Proof.
  intros Hnat. split.
  - intros source. unfold OnlineSpeakerDiarization.from_source.
    rewrite !from_source_streams_eq.
    destruct (py_assert _ _); [|reflexivity]. cbn [bind].
    destruct (PipelineConfig.get_end_time _ _) as [end_time|];
      [|reflexivity].
    cbn [bind fmap]. f_equal. unfold OnlineSpeakerTracking.call. cbn.
    apply annotations_with_waveform; [exact Hnat|].
    unfold rx_zip. rewrite length_combine, !length_map, Nat.min_id.
    reflexivity.
  - intros file batch_size.
    pose proof (from_file_streams_same_failure file true false batch_size)
      as Hsame.
    unfold OnlineSpeakerDiarization.from_file.
    destruct (OnlineSpeakerDiarization.from_file_streams self file true
                batch_size) as [streams|e] eqn:Ht;
      destruct (OnlineSpeakerDiarization.from_file_streams self file false
                  batch_size) as [streams'|e'] eqn:Hf;
      cbn [fmap bind] in *; try discriminate; [|congruence].
    destruct (from_file_streams_inv _ _ _ _ Ht) as [Hpos Hne].
    rewrite (from_file_streams_eq self file true Hpos Hne) in Ht.
    rewrite (from_file_streams_eq self file false Hpos Hne) in Hf.
    destruct (py_mod _ _) as [end_time|]; [|discriminate].
    cbn [bind] in Ht, Hf.
    destruct (py_div (PipelineConfig.duration _) _) as [resolution|];
      [|discriminate].
    cbn [bind] in Ht, Hf.
    destruct (py_div 1 _) as [wav_resolution|]; [|discriminate].
    cbn [bind] in Ht, Hf.
    assert (Hs : file_streams self file true end_time resolution
                   wav_resolution = streams) by congruence.
    assert (Hs' : file_streams self file false end_time resolution
                    wav_resolution = streams') by congruence.
    rewrite <- Hs, <- Hs'. f_equal.
    unfold OnlineSpeakerTracking.call. cbn.
    apply annotations_with_waveform; [exact Hnat|].
    unfold rx_zip.
    rewrite !length_map, !length_combine, !length_map, !length_combine.
    rewrite !length_map, rx_range_count, !Nat.min_id. reflexivity.
Qed.
End Online.

(** ** The pipeline on the mock collaborators *)

#[local] Existing Instance Mock.externals.

Lemma sliding_natural {X Y : Type} (f : X -> Y) (n : nat) (s : list X) :
  Mock.sliding n (map f s) = map (map f) (Mock.sliding n s).
Proof.
  induction s as [|x s IH]; [reflexivity|].
  cbn [map Mock.sliding].
  change (f x :: map f s) with (map f (x :: s)).
  rewrite length_map, firstn_map, IH.
  destruct (n <=? List.length (x :: s))%nat; reflexivity.
Qed.

Lemma mock_buffer_slide_natural : buffer_slide_natural.
Proof. intros X Y f n s. apply sliding_natural. Qed.

Example init_defaults_mock :
  PipelineConfig.init_defaults Mock.model Mock.model = Ok Mock.config.
Proof. reflexivity. Qed.

Example init_latency_below_step :
  PipelineConfig.init Mock.model Mock.model None 1 (Some (1 # 2))
    (3 # 5) (3 # 10) 1 3 10 20 =
  Err (AssertionError "Invalid latency requested").
Proof. reflexivity. Qed.

Example init_latency_above_duration :
  PipelineConfig.init Mock.model Mock.model (Some 2) (1 # 2) (Some 3)
    (3 # 5) (3 # 10) 1 3 10 20 =
  Err (AssertionError "Invalid latency requested").
Proof. reflexivity. Qed.

Lemma init_defaults_latency_and_duration_witness :
  PipelineConfig.init Mock.model Mock.model None (1 # 2) None
    (3 # 5) (3 # 10) 1 3 10 20 = Ok Mock.config /\
  PipelineConfig.latency Mock.config = PipelineConfig.step Mock.config /\
  PipelineConfig.duration Mock.config =
    Model.specifications_duration Mock.model /\
  PipelineConfig.step Mock.config <= PipelineConfig.latency Mock.config /\
  PipelineConfig.latency Mock.config <= PipelineConfig.duration Mock.config.
Proof.
  assert (H : PipelineConfig.init Mock.model Mock.model None (1 # 2) None
                (3 # 5) (3 # 10) 1 3 10 20 = Ok Mock.config)
    by reflexivity.
  destruct (init_defaults_latency_and_duration _ _ _ _ _ _ _ _ _ _ _ H)
    as (_ & _ & _ & Hl & Hd & Hle1 & Hle2).
  split; [exact H|]. split; [exact (Hl eq_refl)|].
  split; [exact (Hd eq_refl)|]. split; assumption.
Defined.

Example from_source_rejects_microphone :
  OnlineSpeakerDiarization.from_source Mock.diarization Mock.microphone true =
  Err (AssertionError
         "Audio source has sample rate 44100, expected 16000").
Proof. reflexivity. Qed.

Lemma from_source_checks_sample_rate_witness :
  OnlineSpeakerDiarization.from_source Mock.diarization Mock.microphone true =
  Err (AssertionError
         "Audio source has sample rate 44100, expected 16000") /\
  succeeds
    (OnlineSpeakerDiarization.from_source Mock.diarization Mock.blocks true).
Proof.
  split.
  - destruct (from_source_checks_sample_rate (E := Mock.externals)
                Mock.diarization
                Mock.microphone true) as [H _].
    rewrite H; [reflexivity|]. cbn. discriminate.
  - destruct (from_source_checks_sample_rate (E := Mock.externals)
                Mock.diarization
                Mock.blocks true) as [_ H].
    destruct (H eq_refl) as [Heq _]. rewrite Heq. eexists. reflexivity.
Defined.

Lemma from_source_regularizes_iff_irregular_witness :
  exists regular : list (SlidingWindowFeature Z),
    regular =
      regularize_stream 5 (1 # 2) 16000 (AudioSource.stream Mock.blocks) /\
    OnlineSpeakerTracking.audio_chunk_stream
      (source_streams (E := Mock.externals) Mock.diarization Mock.blocks
         true None) =
    Some regular.
Proof.
  destruct (from_source_regularizes_iff_irregular (E := Mock.externals)
              Mock.diarization Mock.blocks true
              (streams := source_streams (E := Mock.externals)
                            Mock.diarization Mock.blocks true None) eq_refl)
    as (regular & _ & Hirr & _ & _ & Hchunks).
  exists regular. split; [exact (Hirr eq_refl) | exact Hchunks].
Defined.

Example init_delayed_mock :
  PipelineConfig.init Mock.model Mock.model None (1 # 2) (Some (3 # 2))
    (3 # 5) (3 # 10) 1 3 10 20 = Ok Mock.config_delayed.
Proof. reflexivity. Qed.

Lemma from_file_end_time_differs_witness :
  exists (live batch : OnlineSpeakerTracking.args) (e_live e_file : Q),
    OnlineSpeakerDiarization.from_source_streams Mock.diarization
      Mock.source false = Ok live /\
    OnlineSpeakerDiarization.from_file_streams Mock.diarization
      "rec.wav" false 32 = Ok batch /\
    OnlineSpeakerTracking.end_time live = Some e_live /\
    OnlineSpeakerTracking.end_time batch = Some e_file /\
    e_live == 10 /\ e_file == 1 # 4 /\ ~ e_live == e_file.
Proof.
  assert (Hl : exists live,
             OnlineSpeakerDiarization.from_source_streams Mock.diarization
               Mock.source false = Ok live /\
             exists e, OnlineSpeakerTracking.end_time live = Some e /\
                       e == 10)
    by (eexists; split; [reflexivity|]; eexists; split; reflexivity).
  assert (Hb : exists batch,
             OnlineSpeakerDiarization.from_file_streams Mock.diarization
               "rec.wav" false 32 = Ok batch /\
             exists e, OnlineSpeakerTracking.end_time batch = Some e /\
                       e == 1 # 4)
    by (eexists; split; [reflexivity|]; eexists; split; reflexivity).
  destruct Hl as (live & Hl & el & Hel & Hel10).
  destruct Hb as (batch & Hb & ef & Hef & Hef4).
  destruct (from_file_end_time_differs_from_live (E := Mock.externals)
              Mock.diarization Mock.source "rec.wav" false false 32
              eq_refl eq_refl eq_refl Hl Hb)
    as (e_live & e_file & Hlive & Hfile & _ & Hne).
  exists live, batch, e_live, e_file.
  assert (e_live = el) by congruence. assert (e_file = ef) by congruence.
  subst el ef. repeat split; assumption.
Defined.

Example from_source_embeddings_mock :
  exists live : OnlineSpeakerTracking.args,
    OnlineSpeakerDiarization.from_source_streams Mock.diarization
      Mock.source true = Ok live /\
    OnlineSpeakerTracking.embedding_stream live =
      [2; 5; 1; 4; 0; 3; 6; 2; 5; 1; 4]%Z.
Proof. eexists. split; reflexivity. Qed.

Lemma embeddings_penalized_then_normalized_witness :
  (exists live : OnlineSpeakerTracking.args,
     OnlineSpeakerDiarization.from_source_streams Mock.diarization
       Mock.source true = Ok live /\
     OnlineSpeakerTracking.embedding_stream live =
       map (fun wave => ((data wave + (2 * data wave + 1)) mod 7)%Z)
         Mock.windows) /\
  (exists batch : OnlineSpeakerTracking.args,
     OnlineSpeakerDiarization.from_file_streams Mock.diarization
       "rec.wav" false 4 = Ok batch /\
     OnlineSpeakerTracking.embedding_stream batch =
       map (fun x => ((x + (2 * x + 1)) mod 7)%Z) Mock.recording).
Proof.
  destruct (embeddings_penalized_then_normalized (E := Mock.externals)
              Mock.diarization) as [Hlive Hfile].
  split.
  - assert (Hl : exists live,
               OnlineSpeakerDiarization.from_source_streams Mock.diarization
                 Mock.source true = Ok live)
      by (eexists; reflexivity).
    destruct Hl as (live & Hl).
    destruct (Hlive _ _ _ Hl) as (_ & Hemb).
    exists live. split; [exact Hl|]. rewrite Hemb. reflexivity.
  - assert (Hb : exists batch,
               OnlineSpeakerDiarization.from_file_streams Mock.diarization
                 "rec.wav" false 4 = Ok batch)
      by (eexists; reflexivity).
    destruct Hb as (batch & Hb). exists batch. split; [exact Hb|].
    destruct (Hfile _ _ _ _ Hb) as (_ & Hemb). rewrite Hemb. reflexivity.
Defined.

Example from_model_streams_without_waveform :
  OnlineSpeakerTracking.from_model_streams Mock.tracking_delayed "rec"
    (Some 10)
    (map (fun x => Mock.chunk 0 x) [10; 20; 30; 40]%Z) [1; 2; 3; 4]%Z None =
  [(10%Z, None); (21%Z, None)].
Proof. reflexivity. Qed.

Example from_model_streams_with_waveform :
  OnlineSpeakerTracking.from_model_streams Mock.tracking_delayed "rec"
    (Some 10)
    (map (fun x => Mock.chunk 0 x) [10; 20; 30; 40]%Z) [1; 2; 3; 4]%Z
    (Some (map (fun x => Mock.chunk 0 x) [5; 6; 7; 8]%Z)) =
  [(10%Z, Some (Mock.chunk 0 5)); (21%Z, Some (Mock.chunk 0 6))].
Proof. reflexivity. Qed.


Example from_file_batch_starts : py_range 0 11 4 = Ok [0; 4; 8]%Z.
Proof. reflexivity. Qed.

Example from_file_rejects_zero_batch_size :
  OnlineSpeakerDiarization.from_file Mock.diarization "rec.wav" false 0 =
  Err (ValueError "range() arg 3 must not be zero").
Proof. reflexivity. Qed.

Lemma from_file_streams_any_batch_size_witness :
  OnlineSpeakerDiarization.from_file_streams Mock.diarization "rec.wav"
    true 4 =
  OnlineSpeakerDiarization.from_file_streams Mock.diarization "rec.wav"
    true 32.
Proof.
  apply (from_file_streams_any_batch_size (E := Mock.externals));
    reflexivity.
Defined.

Example init_accepts_negative_step :
  PipelineConfig.init Mock.model Mock.model None (- (1 # 2)) None
    (3 # 5) (3 # 10) 1 3 10 20 = Ok Mock.config_backwards.
Proof. reflexivity. Qed.



Example from_source_zero_step_open_ended :
  forall cfg : PipelineConfig.t,
    PipelineConfig.step cfg == 0 ->
    PipelineConfig.sample_rate cfg = 16000%Z ->
    succeeds
      (OnlineSpeakerDiarization.from_source
         (OnlineSpeakerDiarization.init cfg) Mock.blocks true).
Proof.
  intros cfg Hs Hsr.
  unfold OnlineSpeakerDiarization.from_source.
  rewrite from_source_streams_eq. cbn. rewrite Hsr. cbn.
  eexists. reflexivity.
Qed.

Lemma from_file_end_time_below_step_witness :
  exists (streams : OnlineSpeakerTracking.args) (e : Q),
    OnlineSpeakerDiarization.from_file_streams Mock.diarization "rec.wav"
      false 32 = Ok streams /\
    OnlineSpeakerTracking.end_time streams = Some e /\
    0 <= e /\ e < 1 # 2.
Proof.
  assert (H : exists streams,
             OnlineSpeakerDiarization.from_file_streams Mock.diarization
               "rec.wav" false 32 = Ok streams)
    by (eexists; reflexivity).
  destruct H as (streams & H).
  destruct (from_file_end_time_below_step (E := Mock.externals)
              Mock.diarization "rec.wav" false 32 eq_refl H)
    as (e & He & Hge & Hlt & _).
  exists streams, e. repeat split; assumption.
Defined.

Lemma from_file_batches_bounded_witness :
  let batches :=
    fold_left
      (OnlineSpeakerDiarization.from_file_batch Mock.diarization
         Mock.recording 4) [0; 4; 8]%Z ([], []) in
  Forall (fun seg : list Z => (0 < List.length seg <= 4)%nat) (fst batches) /\
  List.length (fst batches) = 3%nat /\
  List.concat (fst batches) = map (fun x => (2 * x)%Z) Mock.recording.
Proof.
  cbv zeta.
  destruct (from_file_batches_bounded (E := Mock.externals) Mock.diarization
              Mock.recording (batch_size := 4) (starts := [0; 4; 8]%Z)
              eq_refl eq_refl)
    as (Hb & Hn & Hseg & _).
  split; [exact Hb|]. split; [|exact Hseg].
  apply Nat2Z.inj. etransitivity; [exact Hn | reflexivity].
Defined.

Lemma from_file_windows_witness :
  exists (streams : OnlineSpeakerTracking.args)
         (w : SlidingWindowFeature Z),
    OnlineSpeakerDiarization.from_file_streams Mock.diarization "rec.wav"
      true 4 = Ok streams /\
    nth_error (OnlineSpeakerTracking.segmentation_stream streams) 3
      = Some w /\
    data w = 16%Z /\ sw_start (sliding_window w) == 3 # 2 /\
    sw_duration (sliding_window w) * 4 == 5.
Proof.
  assert (H : exists streams,
             OnlineSpeakerDiarization.from_file_streams Mock.diarization
               "rec.wav" true 4 = Ok streams)
    by (eexists; reflexivity).
  destruct H as (streams & H).
  destruct (from_file_windows (E := Mock.externals) Mock.diarization
              "rec.wav" true 4 H)
    as (resolution & wav_resolution & Hres & _ & Hseg & _).
  eexists streams, _. split; [exact H|].
  split.
  - apply Hseg. exists 8%Z. split; reflexivity.
  - cbn [data sliding_window sw_start sw_duration]. split; [reflexivity|].
    split; [reflexivity | exact Hres].
Defined.

Lemma waveform_request_keeps_annotations_witness :
  fmap (map fst)
    (OnlineSpeakerDiarization.from_source Mock.diarization Mock.source true) =
  fmap (map fst)
    (OnlineSpeakerDiarization.from_source Mock.diarization Mock.source false)
  /\
  fmap (map fst)
    (OnlineSpeakerDiarization.from_file Mock.diarization "rec.wav" true 4) =
  fmap (map fst)
    (OnlineSpeakerDiarization.from_file Mock.diarization "rec.wav" false 4).
Proof.
  destruct (waveform_request_keeps_annotations (E := Mock.externals)
              Mock.diarization mock_buffer_slide_natural) as [Hs Hf].
  split; [apply Hs | apply Hf].
Defined.

Example from_source_annotations_mock :
  fmap (map fst)
    (OnlineSpeakerDiarization.from_source Mock.diarization Mock.source true) =
  Ok [10; 13; 16; 19; 22; 25; 28; 31; 34; 37; 40]%Z.
Proof. reflexivity. Qed.
